(** * RealSense viewer: keyboard dispatch, recorder and exit codes

    A shallow embedding of [src/real_sense_viewer.cpp]: the fields of the
    [RealSenseViewer] object, its callbacks ([keyboardCallback],
    [cloudCallback]), the recorder ([createStreamDirectory],
    [savePointCloud]), the control loop ([run]) and [main].

    Conventions of the embedding.
    - C++ [int] is a [Z] kept in the 32-bit two's complement range by
      [Int32.wrap] after every arithmetic operation (an overflow, which
      C++ leaves undefined, wraps around as it does on the machine).
    - C++ [float] and [double] are IEEE-754 binary32 and binary64 values
      ([spec_float] with precision 24 and 53), rounded to nearest even.
    - Calls into the collaborators (console, grabber, visualizer, file
      system) are recorded, in program order, in a list of [Effect]s.
    - The callbacks run atomically: one [Event] at a time. *)

From Stdlib Require Import ZArith List String Ascii Bool Lia.
From Stdlib Require Finite.
From Stdlib Require Decimal DecimalString DecimalFacts DecimalZ DecimalPos.
From Stdlib Require Import SpecFloat.
Import ListNotations.

Local Open Scope string_scope.
Local Open Scope Z_scope.

(* ===================================================================== *)
(** ** Machine integers *)

Module Int32.

Definition min_signed : Z := - 2 ^ 31.
Definition max_signed : Z := 2 ^ 31 - 1.

(** Two's complement reduction to 32 bits. *)
Definition wrap (z : Z) : Z := (z + 2 ^ 31) mod 2 ^ 32 - 2 ^ 31.

Definition add (a b : Z) : Z := wrap (a + b).

Definition in_range (z : Z) : Prop := min_signed <= z <= max_signed.

End Int32.

(* ===================================================================== *)
(** ** Stream formatting of integers *)

Module Fmt.

(** [operator<<] on an [int], and [%i] / [%u] of boost::format: the
    decimal digits, with a leading minus sign for a negative number. *)
Definition show_int (z : Z) : string :=
  DecimalString.NilEmpty.string_of_int (Z.to_int z).

Fixpoint zeros (n : nat) : string :=
  match n with
  | O => EmptyString
  | S n' => String "0" (zeros n')
  end.

(** [std::setfill('0') << std::setw(w)] before one insertion: the text
    is padded on the left (the stream's default adjustment) up to [w]
    characters, and never truncated. *)
Definition setw_fill0 (w : nat) (s : string) : string :=
  zeros (w - String.length s) ++ s.

Definition pad4 (z : Z) : string := setw_fill0 4 (show_int z).

(** Reading back: the leading zeros are dropped; an all-zero text
    stands for the digit zero. *)
Fixpoint strip0 (s : string) : string :=
  match s with
  | String "0" s' => strip0 s'
  | _ => s
  end.

Definition unpad (s : string) : string :=
  match strip0 s with
  | EmptyString => "0"
  | t => t
  end.

(** What [printf] writes for a format that is given no argument: the
    characters of the format, with one percent sign for [%%]. Any other
    conversion specification reads an argument that was not passed, which
    C leaves undefined: there is no text then. *)
Fixpoint printf0 (format : string) : option string :=
  match format with
  | EmptyString => Some EmptyString
  | String c rest =>
      if Ascii.eqb c "%" then
        match rest with
        | EmptyString => None
        | String c' rest' =>
            if Ascii.eqb c' "%"
            then option_map (String "%") (printf0 rest')
            else None
        end
      else option_map (String c) (printf0 rest)
  end.

Fixpoint no_percent (s : string) : bool :=
  match s with
  | EmptyString => true
  | String c rest => negb (Ascii.eqb c "%") && no_percent rest
  end.

End Fmt.

(* ===================================================================== *)
(** ** Floating point *)

(** [float]: IEEE-754 binary32. *)
Module F32.

Definition prec : Z := 24.
Definition emax : Z := 128.

Definition t : Type := spec_float.

Definition add (x y : t) : t := SFadd prec emax x y.

(** Rounding of a value of any binary format to binary32. *)
Definition round (x : spec_float) : t :=
  match x with
  | S754_finite s m e => binary_round prec emax s m e
  | _ => x
  end.

(** Conversion from [int]. *)
Definition of_int (z : Z) : t := binary_normalize prec emax z 0 false.

Definition leb (x y : t) : bool := SFleb x y.

End F32.

(** [double]: IEEE-754 binary64. *)
Module F64.

Definition prec : Z := 53.
Definition emax : Z := 1024.

Definition t : Type := spec_float.

Definition add (x y : t) : t := SFadd prec emax x y.
Definition div (x y : t) : t := SFdiv prec emax x y.
Definition opp (x : t) : t := SFopp x.

(** Widening of a [float]; exact, the result is the canonical binary64
    representation of the same number. *)
Definition of_float (x : F32.t) : t :=
  match x with
  | S754_finite s m e => binary_round prec emax s m e
  | _ => x
  end.

Definition of_int (z : Z) : t := binary_normalize prec emax z 0 false.

Definition leb (x y : t) : bool := SFleb x y.
Definition ltb (x y : t) : bool := SFltb x y.

(** The literal [0.01]: 5764607523034235 * 2^-59, the binary64 number
    nearest to one hundredth. *)
Definition lit_0_01 : t := S754_finite false 5764607523034235 (-59).

(** The literal [0.05] (PCL's default range sigma is [0.05f]). *)
Definition lit_0_05 : t := S754_finite false 7205759403792794 (-57).

End F64.

(* ===================================================================== *)
(** ** Data model *)

(** [pcl::RealSenseGrabber::TemporalFilteringType]; the enumerators in
    the order of the table [TF] of [displaySettings]. *)
Inductive TemporalFilteringType : Type :=
  | RealSense_None
  | RealSense_Median
  | RealSense_Average.

(** A point cloud, as far as the viewer looks at it: a cloud delivered
    by the grabber carries the capture time [header.stamp]; the output of
    [pcl::FastBilateralFilter] is determined by the two sigmas and the
    input cloud. *)
Inductive Cloud : Type :=
  | Grabbed (stamp : Z)
  | Filtered (sigma_s sigma_r : F32.t) (input : Cloud).

Fixpoint header_stamp (c : Cloud) : Z :=
  match c with
  | Grabbed stamp => stamp
  | Filtered _ _ input => header_stamp input
  end.

(** [pcl::visualization::KeyboardEvent]: [keyDown ()] and
    [getKeyCode ()]. *)
Record KeyboardEvent : Type := {
  keyDown : bool;
  getKeyCode : ascii
}.

(** One line of the status overlay. The frame rate is a reading of the
    grabber, and the two sigmas are kept as numbers. *)
Inductive OverlayEntry : Type :=
  | Framerate
  | Text (s : string)
  | BilateralOn (sigma_s sigma_r : F32.t).

(** Calls into the collaborators, as the program issues them. The
    console calls [print_info], [print_value] and [print_error] carry the
    text they write; [PrintValueFormat] is the call of [print_value] with
    a format that the program has computed and with no further argument,
    and carries that format. *)
Inductive Effect : Type :=
  | PrintInfo (s : string)
  | PrintValue (s : string)
  | PrintValueFormat (format : string)
  | PrintFloat (fmt : string) (v : F32.t)
  | EnableTemporalFiltering (mode : TemporalFilteringType) (window : Z)
  | SetConfidenceThreshold (threshold : Z)
  | DirectoryCreation (name : string) (ok : bool)
  | SavePCD (path : string) (cloud : Cloud)
  | Cerr (s : string)
  | Cout (s : string)
  | PrintError (s : string)
  | UpdatePointCloud (cloud : Cloud) (ok : bool)
  | AddPointCloud (cloud : Cloud)
  | ResetCamera
  | GrabberStart
  | GrabberStop
  | Overlay (entries : list OverlayEntry).

(** The fields of [RealSenseViewer], with the state of the members it
    owns: the sigmas of [bilateral_], and of [viewer_] whether it was
    stopped and whether it holds a cloud named "cloud". *)
Record RealSenseViewer : Type := {
  window_ : Z;
  threshold_ : Z;
  temporal_filtering_ : TemporalFilteringType;
  with_bilateral_ : bool;
  save_stream_ : bool;
  stream_id_ : Z;
  frame_id_ : Z;
  sigma_s_ : F32.t;
  sigma_r_ : F32.t;
  new_cloud_ : option Cloud;
  last_cloud_ : option Cloud;
  wasStopped : bool;
  has_cloud : bool
}.

(** What the program sees of its environment: the serial number of the
    opened device, and the working directory. [CreateDirectory] of the
    operating system fails when the directory exists already, or when
    the working directory cannot be written. *)
Record World : Type := {
  serial : string;
  directories : list string;
  read_only : bool;
  effects : list Effect
}.

Record Machine : Type := {
  self : RealSenseViewer;
  world : World
}.

(** How a callback ends: it returns, the process is ended by [exit], or
    a null [shared_ptr] is dereferenced. *)
Inductive Result (A : Type) : Type :=
  | Done (a : A) (m : Machine)
  | Exited (code : Z) (m : Machine)
  | NullDereference (m : Machine).

Arguments Done {A} a m.
Arguments Exited {A} code m.
Arguments NullDereference {A} m.

Definition M (A : Type) : Type := Machine -> Result A.

Definition ret {A : Type} (a : A) : M A := fun m => Done a m.

Definition bind {A B : Type} (c : M A) (k : A -> M B) : M B :=
  fun m =>
    match c m with
    | Done a m' => k a m'
    | Exited code m' => Exited code m'
    | NullDereference m' => NullDereference m'
    end.

Declare Scope m_scope.
Delimit Scope m_scope with m.
Notation "x <- c ;; k" := (bind c (fun x => k))
  (at level 61, c at next level, right associativity) : m_scope.
Notation "c ;; k" := (bind c (fun _ => k))
  (at level 61, right associativity) : m_scope.
Local Open Scope m_scope.

Definition this : M RealSenseViewer := fun m => Done (self m) m.

Definition update (f : RealSenseViewer -> RealSenseViewer) : M unit :=
  fun m => Done tt {| self := f (self m); world := world m |}.

Definition env : M World := fun m => Done (world m) m.

Definition emit (e : Effect) : M unit :=
  fun m =>
    let w := world m in
    Done tt {| self := self m;
               world := {| serial := serial w;
                           directories := directories w;
                           read_only := read_only w;
                           effects := effects w ++ [e] |} |}.

Definition exit {A : Type} (code : Z) : M A := fun m => Exited code m.

Definition null_dereference {A : Type} : M A := fun m => NullDereference m.

Definition when (b : bool) (c : M unit) : M unit :=
  if b then c else ret tt.

(** Assignments to single fields. *)
Definition set_window_ (x : Z) (v : RealSenseViewer) : RealSenseViewer :=
  {| window_ := x; threshold_ := threshold_ v;
     temporal_filtering_ := temporal_filtering_ v;
     with_bilateral_ := with_bilateral_ v; save_stream_ := save_stream_ v;
     stream_id_ := stream_id_ v; frame_id_ := frame_id_ v;
     sigma_s_ := sigma_s_ v; sigma_r_ := sigma_r_ v;
     new_cloud_ := new_cloud_ v; last_cloud_ := last_cloud_ v;
     wasStopped := wasStopped v; has_cloud := has_cloud v |}.

Definition set_threshold_ (x : Z) (v : RealSenseViewer) : RealSenseViewer :=
  {| window_ := window_ v; threshold_ := x;
     temporal_filtering_ := temporal_filtering_ v;
     with_bilateral_ := with_bilateral_ v; save_stream_ := save_stream_ v;
     stream_id_ := stream_id_ v; frame_id_ := frame_id_ v;
     sigma_s_ := sigma_s_ v; sigma_r_ := sigma_r_ v;
     new_cloud_ := new_cloud_ v; last_cloud_ := last_cloud_ v;
     wasStopped := wasStopped v; has_cloud := has_cloud v |}.

Definition set_temporal_filtering_ (x : TemporalFilteringType)
    (v : RealSenseViewer) : RealSenseViewer :=
  {| window_ := window_ v; threshold_ := threshold_ v;
     temporal_filtering_ := x;
     with_bilateral_ := with_bilateral_ v; save_stream_ := save_stream_ v;
     stream_id_ := stream_id_ v; frame_id_ := frame_id_ v;
     sigma_s_ := sigma_s_ v; sigma_r_ := sigma_r_ v;
     new_cloud_ := new_cloud_ v; last_cloud_ := last_cloud_ v;
     wasStopped := wasStopped v; has_cloud := has_cloud v |}.

Definition set_with_bilateral_ (x : bool) (v : RealSenseViewer)
    : RealSenseViewer :=
  {| window_ := window_ v; threshold_ := threshold_ v;
     temporal_filtering_ := temporal_filtering_ v;
     with_bilateral_ := x; save_stream_ := save_stream_ v;
     stream_id_ := stream_id_ v; frame_id_ := frame_id_ v;
     sigma_s_ := sigma_s_ v; sigma_r_ := sigma_r_ v;
     new_cloud_ := new_cloud_ v; last_cloud_ := last_cloud_ v;
     wasStopped := wasStopped v; has_cloud := has_cloud v |}.

Definition set_save_stream_ (x : bool) (v : RealSenseViewer)
    : RealSenseViewer :=
  {| window_ := window_ v; threshold_ := threshold_ v;
     temporal_filtering_ := temporal_filtering_ v;
     with_bilateral_ := with_bilateral_ v; save_stream_ := x;
     stream_id_ := stream_id_ v; frame_id_ := frame_id_ v;
     sigma_s_ := sigma_s_ v; sigma_r_ := sigma_r_ v;
     new_cloud_ := new_cloud_ v; last_cloud_ := last_cloud_ v;
     wasStopped := wasStopped v; has_cloud := has_cloud v |}.

Definition set_stream_id_ (x : Z) (v : RealSenseViewer) : RealSenseViewer :=
  {| window_ := window_ v; threshold_ := threshold_ v;
     temporal_filtering_ := temporal_filtering_ v;
     with_bilateral_ := with_bilateral_ v; save_stream_ := save_stream_ v;
     stream_id_ := x; frame_id_ := frame_id_ v;
     sigma_s_ := sigma_s_ v; sigma_r_ := sigma_r_ v;
     new_cloud_ := new_cloud_ v; last_cloud_ := last_cloud_ v;
     wasStopped := wasStopped v; has_cloud := has_cloud v |}.

Definition set_frame_id_ (x : Z) (v : RealSenseViewer) : RealSenseViewer :=
  {| window_ := window_ v; threshold_ := threshold_ v;
     temporal_filtering_ := temporal_filtering_ v;
     with_bilateral_ := with_bilateral_ v; save_stream_ := save_stream_ v;
     stream_id_ := stream_id_ v; frame_id_ := x;
     sigma_s_ := sigma_s_ v; sigma_r_ := sigma_r_ v;
     new_cloud_ := new_cloud_ v; last_cloud_ := last_cloud_ v;
     wasStopped := wasStopped v; has_cloud := has_cloud v |}.

(** [bilateral_.setSigmaS] and [bilateral_.setSigmaR]. *)
Definition setSigmaS (x : F32.t) (v : RealSenseViewer) : RealSenseViewer :=
  {| window_ := window_ v; threshold_ := threshold_ v;
     temporal_filtering_ := temporal_filtering_ v;
     with_bilateral_ := with_bilateral_ v; save_stream_ := save_stream_ v;
     stream_id_ := stream_id_ v; frame_id_ := frame_id_ v;
     sigma_s_ := x; sigma_r_ := sigma_r_ v;
     new_cloud_ := new_cloud_ v; last_cloud_ := last_cloud_ v;
     wasStopped := wasStopped v; has_cloud := has_cloud v |}.

Definition setSigmaR (x : F32.t) (v : RealSenseViewer) : RealSenseViewer :=
  {| window_ := window_ v; threshold_ := threshold_ v;
     temporal_filtering_ := temporal_filtering_ v;
     with_bilateral_ := with_bilateral_ v; save_stream_ := save_stream_ v;
     stream_id_ := stream_id_ v; frame_id_ := frame_id_ v;
     sigma_s_ := sigma_s_ v; sigma_r_ := x;
     new_cloud_ := new_cloud_ v; last_cloud_ := last_cloud_ v;
     wasStopped := wasStopped v; has_cloud := has_cloud v |}.

Definition set_new_cloud_ (x : option Cloud) (v : RealSenseViewer)
    : RealSenseViewer :=
  {| window_ := window_ v; threshold_ := threshold_ v;
     temporal_filtering_ := temporal_filtering_ v;
     with_bilateral_ := with_bilateral_ v; save_stream_ := save_stream_ v;
     stream_id_ := stream_id_ v; frame_id_ := frame_id_ v;
     sigma_s_ := sigma_s_ v; sigma_r_ := sigma_r_ v;
     new_cloud_ := x; last_cloud_ := last_cloud_ v;
     wasStopped := wasStopped v; has_cloud := has_cloud v |}.

Definition set_last_cloud_ (x : option Cloud) (v : RealSenseViewer)
    : RealSenseViewer :=
  {| window_ := window_ v; threshold_ := threshold_ v;
     temporal_filtering_ := temporal_filtering_ v;
     with_bilateral_ := with_bilateral_ v; save_stream_ := save_stream_ v;
     stream_id_ := stream_id_ v; frame_id_ := frame_id_ v;
     sigma_s_ := sigma_s_ v; sigma_r_ := sigma_r_ v;
     new_cloud_ := new_cloud_ v; last_cloud_ := x;
     wasStopped := wasStopped v; has_cloud := has_cloud v |}.

Definition set_wasStopped (x : bool) (v : RealSenseViewer)
    : RealSenseViewer :=
  {| window_ := window_ v; threshold_ := threshold_ v;
     temporal_filtering_ := temporal_filtering_ v;
     with_bilateral_ := with_bilateral_ v; save_stream_ := save_stream_ v;
     stream_id_ := stream_id_ v; frame_id_ := frame_id_ v;
     sigma_s_ := sigma_s_ v; sigma_r_ := sigma_r_ v;
     new_cloud_ := new_cloud_ v; last_cloud_ := last_cloud_ v;
     wasStopped := x; has_cloud := has_cloud v |}.

Definition set_has_cloud (x : bool) (v : RealSenseViewer) : RealSenseViewer :=
  {| window_ := window_ v; threshold_ := threshold_ v;
     temporal_filtering_ := temporal_filtering_ v;
     with_bilateral_ := with_bilateral_ v; save_stream_ := save_stream_ v;
     stream_id_ := stream_id_ v; frame_id_ := frame_id_ v;
     sigma_s_ := sigma_s_ v; sigma_r_ := sigma_r_ v;
     new_cloud_ := new_cloud_ v; last_cloud_ := last_cloud_ v;
     wasStopped := wasStopped v; has_cloud := x |}.

(* ===================================================================== *)
(** ** The viewer *)

(** The line feed of ["\n"] and [std::endl]. *)
Definition nl : string := String "010"%char EmptyString.

Definition key_is (event : KeyboardEvent) (c : ascii) : bool :=
  Ascii.eqb (getKeyCode event) c.

(** The default range sigma of [pcl::FastBilateralFilter], [0.05f]. *)
Definition default_sigma_r : F32.t := F32.round F64.lit_0_05.

(** The constructor: the member initializers, then
    [bilateral_.setSigmaS (5)]. *)
Definition constructed : RealSenseViewer :=
  setSigmaS (F32.of_int 5)
    {| window_ := 3;
       threshold_ := 6;
       temporal_filtering_ := RealSense_None;
       with_bilateral_ := false;
       save_stream_ := false;
       stream_id_ := 0;
       frame_id_ := 0;
       sigma_s_ := F32.of_int 15;
       sigma_r_ := default_sigma_r;
       new_cloud_ := None;
       last_cloud_ := None;
       wasStopped := false;
       has_cloud := false |}.

(** The operating system's [CreateDirectory (name, NULL)]: it creates
    the directory and answers true, unless a directory of that name
    exists or the working directory cannot be written. *)
Definition creatable (name : string) (w : World) : bool :=
  negb (read_only w) && negb (existsb (String.eqb name) (directories w)).

Definition CreateDirectory (name : string) : M bool :=
  fun m =>
    let w := world m in
    let ok := creatable name w in
    Done ok
      {| self := self m;
         world := {| serial := serial w;
                     directories :=
                       if ok then name :: directories w else directories w;
                     read_only := read_only w;
                     effects := effects w ++ [DirectoryCreation name ok] |} |}.

Definition createStreamDirectory : M unit :=
  v <- this ;;
  ok <- CreateDirectory (Fmt.pad4 (stream_id_ v)) ;;
  if ok then ret tt
  else
    emit (Cerr ("Error creating save directory." ++ nl)) ;;
    exit (-1).

(** The name [savePointCloud] builds: the session number, a slash, the
    frame number, both padded to four characters, and the extension. *)
Definition stream_path (stream_id frame_id : Z) : string :=
  Fmt.pad4 stream_id ++ "/" ++ Fmt.pad4 frame_id ++ ".pcd".

Definition savePointCloud (cloud : Cloud) : M unit :=
  v <- this ;;
  emit (SavePCD (stream_path (stream_id_ v) (frame_id_ v)) cloud) ;;
  update (set_frame_id_ (Int32.add (frame_id_ v) 1)).

Definition TF (mode : TemporalFilteringType) : string :=
  match mode with
  | RealSense_None => "off"
  | RealSense_Median => "median"
  | RealSense_Average => "average"
  end.

Definition is_None (mode : TemporalFilteringType) : bool :=
  match mode with
  | RealSense_None => true
  | _ => false
  end.

Definition overlay (v : RealSenseViewer) : Effect :=
  let tfs := ", window size " ++ Fmt.show_int (window_ v) in
  Overlay
    [ Framerate;
      Text ("confidence threshold: " ++ Fmt.show_int (threshold_ v));
      Text ("temporal filtering: " ++ TF (temporal_filtering_ v)
            ++ (if is_None (temporal_filtering_ v) then EmptyString else tfs));
      (if with_bilateral_ v
       then BilateralOn (sigma_s_ v) (sigma_r_ v)
       else Text "bilateral filtering: off");
      Text ("save stream: " ++ (if save_stream_ v then "on" else "off")) ].

Definition displaySettings : M unit :=
  v <- this ;;
  emit (overlay v).

(** What [cloudCallback] stores in [new_cloud_]: the delivered cloud, or
    the output of the bilateral filter for it. *)
Definition incoming (v : RealSenseViewer) (cloud : Cloud) : Cloud :=
  if with_bilateral_ v
  then Filtered (sigma_s_ v) (sigma_r_ v) cloud
  else cloud.

Definition cloudCallback (cloud : Cloud) : M unit :=
  v <- this ;;
  when (negb (wasStopped v)) (
    update (set_new_cloud_ (Some (incoming v cloud))) ;;
    when (save_stream_ v) (savePointCloud (incoming v cloud))).

(** The branches of [keyboardCallback], in the order of the source.

    w and W: [window_ += event.getKeyCode () == 'w' ? 1 : -1], floor 1. *)
Definition on_window (event : KeyboardEvent) : M unit :=
  v <- this ;;
  let w := Int32.add (window_ v) (if key_is event "w" then 1 else -1) in
  let w := if w <? 1 then 1 else w in
  update (set_window_ w) ;;
  emit (PrintInfo "Temporal filtering window size: ") ;;
  emit (PrintValue (Fmt.show_int w ++ nl)) ;;
  emit (EnableTemporalFiltering (temporal_filtering_ v) w).

(** t and T: the threshold is moved by one, then clamped below at 0 and
    above at 15. *)
Definition on_threshold (event : KeyboardEvent) : M unit :=
  v <- this ;;
  let t := Int32.add (threshold_ v) (if key_is event "t" then 1 else -1) in
  let t := if t <? 0 then 0 else t in
  let t := if t >? 15 then 15 else t in
  update (set_threshold_ t) ;;
  emit (PrintInfo "Confidence threshold: ") ;;
  emit (PrintValue (Fmt.show_int t ++ nl)) ;;
  emit (SetConfidenceThreshold t).

(** k: the [switch] over [temporal_filtering_]; the case of the mode none
    falls into the block that selects average (the median block is
    commented out), the case of average selects none, and there is no
    case for median. *)
Definition on_temporal : M unit :=
  emit (PrintInfo "Temporal filtering: ") ;;
  v <- this ;;
  match temporal_filtering_ v with
  | RealSense_None =>
      update (set_temporal_filtering_ RealSense_Average) ;;
      emit (PrintValue ("average" ++ nl))
  | RealSense_Average =>
      update (set_temporal_filtering_ RealSense_None) ;;
      emit (PrintValue ("none" ++ nl))
  | RealSense_Median => ret tt
  end ;;
  v' <- this ;;
  emit (EnableTemporalFiltering (temporal_filtering_ v') (window_ v')).

(** b: [with_bilateral_ = !with_bilateral_]. *)
Definition on_bilateral : M unit :=
  v <- this ;;
  update (set_with_bilateral_ (negb (with_bilateral_ v))) ;;
  emit (PrintInfo "Bilateral filtering: ") ;;
  emit (PrintValue ((if negb (with_bilateral_ v) then "ON" else "OFF") ++ nl)).

(** a and A: [float s = bilateral_.getSigmaS (); s += ... ? 1 : -1;
    if (s <= 1) s = 1;], all in [float]. *)
Definition on_sigma_s (event : KeyboardEvent) : M unit :=
  v <- this ;;
  let s := sigma_s_ v in
  let s := F32.add s (F32.of_int (if key_is event "a" then 1 else -1)) in
  let s := if F32.leb s (F32.of_int 1) then F32.of_int 1 else s in
  emit (PrintInfo "Bilateral filter spatial sigma: ") ;;
  emit (PrintFloat ("%.0f" ++ nl) s) ;;
  update (setSigmaS s).

(** z and Z: [float r = bilateral_.getSigmaR (); r += ... ? 0.01 : -0.01;
    if (r <= 0.01) r = 0.01;]. The literals are [double]s: the sum and
    the comparison are made in [double], and the sum and the literal are
    rounded to [float] when they are stored in [r]. *)
Definition on_sigma_r (event : KeyboardEvent) : M unit :=
  v <- this ;;
  let r := sigma_r_ v in
  let r := F32.round
             (F64.add (F64.of_float r)
                (if key_is event "z" then F64.lit_0_01
                 else F64.opp F64.lit_0_01)) in
  let r := if F64.leb (F64.of_float r) F64.lit_0_01
           then F32.round F64.lit_0_01 else r in
  emit (PrintInfo "Bilateral filter range sigma: ") ;;
  emit (PrintFloat ("%.2f" ++ nl) r) ;;
  update (setSigmaR r).

(** p: the file name is made of the serial number and of
    [last_cloud_->header.stamp]; [last_cloud_] is dereferenced as it
    is. The file name is handed to [print_value] as its format. *)
Definition on_save : M unit :=
  v <- this ;;
  w <- env ;;
  match last_cloud_ v with
  | None => null_dereference
  | Some cloud =>
      let fn := "RS_" ++ serial w ++ "_"
                ++ Fmt.show_int (header_stamp cloud) ++ ".pcd" in
      emit (SavePCD fn cloud) ;;
      emit (PrintInfo "Saved point cloud: ") ;;
      emit (PrintValueFormat fn) ;;
      emit (PrintInfo nl)
  end.

(** s: [save_stream_ = !save_stream_]; when it is now on,
    [stream_id_++; frame_id_++; createStreamDirectory ();], else
    [frame_id_ = 0]. *)
Definition on_record : M unit :=
  v <- this ;;
  let save_stream := negb (save_stream_ v) in
  update (set_save_stream_ save_stream) ;;
  emit (PrintInfo "Record stream: ") ;;
  emit (PrintValue ((if save_stream then "ON" else "OFF") ++ nl)) ;;
  if save_stream
  then
    update (set_stream_id_ (Int32.add (stream_id_ v) 1)) ;;
    update (set_frame_id_ (Int32.add (frame_id_ v) 1)) ;;
    createStreamDirectory
  else
    update (set_frame_id_ 0).

Definition keyboardCallback (event : KeyboardEvent) : M unit :=
  when (keyDown event) (
    when (key_is event "w" || key_is event "W") (on_window event) ;;
    when (key_is event "t" || key_is event "T") (on_threshold event) ;;
    when (key_is event "k") on_temporal ;;
    when (key_is event "b") on_bilateral ;;
    when (key_is event "a" || key_is event "A") (on_sigma_s event) ;;
    when (key_is event "z" || key_is event "Z") (on_sigma_r event) ;;
    when (key_is event "p") on_save ;;
    when (key_is event "s") on_record ;;
    displaySettings).

(** The body of the loop of [run], up to the call of [spinOnce]. *)
Definition show_new_cloud : M unit :=
  v <- this ;;
  match new_cloud_ v with
  | None => ret tt
  | Some cloud =>
      emit (UpdatePointCloud cloud (has_cloud v)) ;;
      when (negb (has_cloud v)) (
        emit (AddPointCloud cloud) ;;
        update (set_has_cloud true) ;;
        emit ResetCamera) ;;
      displaySettings ;;
      update (set_last_cloud_ (Some cloud)) ;;
      update (set_new_cloud_ None)
  end.

(** What happens while [run] is active: [spinOnce] hands a keyboard
    event to [keyboardCallback], the grabber hands a cloud to
    [cloudCallback], the loop of [run] starts an iteration, or the
    window is closed. *)
Inductive Event : Type :=
  | KeyEvent (event : KeyboardEvent)
  | CloudEvent (cloud : Cloud)
  | LoopIteration
  | WindowClosed.

Definition handle (ev : Event) : M unit :=
  match ev with
  | KeyEvent event => keyboardCallback event
  | CloudEvent cloud => cloudCallback cloud
  | LoopIteration => show_new_cloud
  | WindowClosed => update (set_wasStopped true)
  end.

Fixpoint deliver (evs : list Event) : M unit :=
  match evs with
  | [] => ret tt
  | ev :: evs' => handle ev ;; deliver evs'
  end.

Definition key_down (c : ascii) : KeyboardEvent :=
  {| keyDown := true; getKeyCode := c |}.

Definition key_up (c : ascii) : KeyboardEvent :=
  {| keyDown := false; getKeyCode := c |}.

Definition press (c : ascii) : Event := KeyEvent (key_down c).

Definition release (c : ascii) : Event := KeyEvent (key_up c).

(** The loop of [run]: events are served until the viewer is seen
    stopped; the answer tells whether the loop has ended within the
    given events. *)
Fixpoint run_loop (evs : list Event) : M bool :=
  v <- this ;;
  if wasStopped v then ret true
  else
    match evs with
    | [] => ret false
    | ev :: evs' => handle ev ;; run_loop evs'
    end.

(** [run]: the grabber is started, the loop runs, the grabber is
    stopped. *)
Definition run (evs : list Event) : M bool :=
  emit GrabberStart ;;
  ended <- run_loop evs ;;
  when ended (emit GrabberStop) ;;
  ret ended.

(* ===================================================================== *)
(** ** The program *)

(** [pcl::console::find_switch]: one of the arguments after the program
    name is the switch. *)
Definition find_switch (argv : list string) (name : string) : bool :=
  existsb (String.eqb name) (tl argv).

(** What [main] finds outside the process: the serial numbers of the
    devices a default-constructed grabber captures one after the other;
    the constructor [pcl::RealSenseGrabber (device_id)], which gives the
    serial number of the captured device or throws an [IOException] with
    a message; the working directory. *)
Record Host : Type := {
  connected : list string;
  grabber : string -> string + string;
  cwd_directories : list string;
  cwd_read_only : bool
}.

(** How the process ends, if it does within the events given. *)
Inductive Outcome : Type :=
  | Returned (code : Z)
  | ExitCalled (code : Z)
  | Crashed
  | Running.

Definition exit_code (o : Outcome) : option Z :=
  match o with
  | Returned code => Some code
  | ExitCalled code => Some code
  | Crashed => None
  | Running => None
  end.

(** [printHelp]: the usage guide, one insertion into [std::cout] after
    the other; [argv[0]] is the name of the program. *)
Definition printHelp (argv : list string) : list Effect :=
  [ Cout nl;
    Cout ("****************************************************************************" ++ nl);
    Cout ("*                                                                          *" ++ nl);
    Cout ("*                        REAL SENSE VIEWER - Usage Guide                   *" ++ nl);
    Cout ("*                                                                          *" ++ nl);
    Cout ("****************************************************************************" ++ nl);
    Cout nl;
    Cout ("Usage: " ++ hd EmptyString argv ++ " [Options] device_id" ++ nl);
    Cout nl;
    Cout ("Options:" ++ nl);
    Cout nl;
    Cout ("     --help, -h : Show this help" ++ nl);
    Cout ("     --list, -l : List connected RealSense devices" ++ nl);
    Cout ("     --xyz      : View XYZ-only clouds" ++ nl);
    Cout nl;
    Cout ("Keyboard commands:" ++ nl);
    Cout nl;
    Cout ("   When the focus is on the viewer window, the following keyboard commands" ++ nl);
    Cout ("   are available:" ++ nl);
    Cout ("     * t/T : increase or decrease depth data confidence threshold" ++ nl);
    Cout ("     * k   : enable next temporal filtering method" ++ nl);
    Cout ("     * b   : toggle bilateral filtering" ++ nl);
    Cout ("     * a/A : increase or decrease bilateral filter spatial sigma" ++ nl);
    Cout ("     * z/Z : increase or decrease bilateral filter range sigma" ++ nl);
    Cout ("     * s   : save the last grabbed cloud to disk" ++ nl);
    Cout ("     * h   : print the list of standard PCL viewer commands" ++ nl);
    Cout nl;
    Cout ("Notes:" ++ nl);
    Cout nl;
    Cout ("   The device to grab data from is selected using device_id argument. It" ++ nl);
    Cout ("   could be either:" ++ nl);
    Cout ("     * serial number (e.g. 231400041-03)" ++ nl);
    Cout ("     * device index (e.g. #2 for the second connected device)" ++ nl);
    Cout nl;
    Cout ("   If device_id is not given, then the first available device will be used." ++ nl);
    Cout nl ].

Fixpoint print_devices (i : Z) (serials : list string) : list Effect :=
  match serials with
  | [] => []
  | s :: rest =>
      Cout (nl ++ "  #" ++ Fmt.show_int i ++ "  " ++ s)
      :: print_devices (i + 1) rest
  end.

(** [printDeviceList]: grabbers are created until the constructor
    throws. *)
Definition printDeviceList (host : Host) : list Effect :=
  Cout "Connected devices: "
  :: print_devices 1 (connected host)
  ++ [ match connected host with
       | [] => Cout ("none" ++ nl)
       | _ :: _ => Cout nl
       end ].

Definition banner : Effect :=
  PrintInfo ("Viewer for RealSense devices (run with --help for more information)" ++ nl).

Definition quote : string := String "034"%char EmptyString.

Definition help_or_list (argv : list string) : bool :=
  find_switch argv "--help" || find_switch argv "-h"
  || find_switch argv "--list" || find_switch argv "-l".

(** No argument, or the single argument [--xyz]. *)
Definition first_available (argv : list string) : bool :=
  let argc := Z.of_nat (List.length argv) in
  (argc =? 1) || ((argc =? 2) && find_switch argv "--xyz").

Definition device_id (argv : list string) : string :=
  if first_available argv then EmptyString else last argv EmptyString.

(** The machine when [run] is entered. *)
Definition start (w : World) : Machine :=
  {| self := constructed; world := w |}.

(** What [main] prints before the grabber is created. *)
Definition startup_prints (argv : list string) : list Effect :=
  [ banner;
    if first_available argv
    then PrintInfo ("Creating a grabber for the first available device" ++ nl)
    else PrintInfo ("Creating a grabber for device " ++ quote
                    ++ device_id argv ++ quote ++ nl) ].

(** The world [main] starts the viewer in. *)
Definition world_of (host : Host) (device_serial : string)
    (printed : list Effect) : World :=
  {| serial := device_serial;
     directories := cwd_directories host;
     read_only := cwd_read_only host;
     effects := printed |}.

(** [main]: what is printed, and how the process ends. The one
    [IOException] taken into account is that of the constructor of the
    grabber. *)
Definition main (argv : list string) (host : Host) (events : list Event)
    : list Effect * Outcome :=
  if find_switch argv "--help" || find_switch argv "-h" then
    (banner :: printHelp argv, Returned 0)
  else if find_switch argv "--list" || find_switch argv "-l" then
    (banner :: printDeviceList host, Returned 0)
  else
    match grabber host (device_id argv) with
    | inl what =>
        (List.app (startup_prints argv)
           [ PrintError ("Failed to create a grabber: " ++ what ++ nl) ],
         Returned 1)
    | inr device_serial =>
        match run events
                (start (world_of host device_serial (startup_prints argv)))
        with
        | Done true m => (effects (world m), Returned 0)
        | Done false m => (effects (world m), Running)
        | Exited code m => (effects (world m), ExitCalled code)
        | NullDereference m => (effects (world m), Crashed)
        end
    end.

(** The paths handed to [savePCDFileBinaryCompressed], in order. *)
Fixpoint saved_paths (effs : list Effect) : list string :=
  match effs with
  | [] => []
  | SavePCD path _ :: rest => path :: saved_paths rest
  | _ :: rest => saved_paths rest
  end.

(** The saves of consecutive frames of one session. *)
Fixpoint stream_saves (v : RealSenseViewer) (frame_id : Z)
    (clouds : list Cloud) : list Effect :=
  match clouds with
  | [] => []
  | cloud :: rest =>
      SavePCD (stream_path (stream_id_ v) frame_id) (incoming v cloud)
      :: stream_saves v (frame_id + 1) rest
  end.

(** [n] consecutive integers from [first]. *)
Fixpoint consecutive (first : Z) (n : nat) : list Z :=
  match n with
  | O => []
  | S n' => first :: consecutive (first + 1) n'
  end.

(** The keys [keyboardCallback] tests for. *)
Definition command_keys : list ascii :=
  [ "w"; "W"; "t"; "T"; "k"; "b"; "a"; "A"; "z"; "Z"; "p"; "s" ]%char.

(** A key-down event of one of the command keys. *)
Definition is_command (event : KeyboardEvent) : bool :=
  keyDown event && existsb (Ascii.eqb (getKeyCode event)) command_keys.

(** The temporal filtering mode after some events, if they all return. *)
Definition mode_after (evs : list Event) (m : Machine)
    : option TemporalFilteringType :=
  match deliver evs m with
  | Done _ m' => Some (temporal_filtering_ (self m'))
  | _ => None
  end.

(** The mode the [switch] of the k key selects. *)
Definition next_mode (mode : TemporalFilteringType) : TemporalFilteringType :=
  match mode with
  | RealSense_None => RealSense_Average
  | RealSense_Average => RealSense_None
  | RealSense_Median => RealSense_Median
  end.

(** The paths saved, and the recording flag, after some events, if they
    all return. *)
Definition saved_after (evs : list Event) (m : Machine)
    : option (list string) :=
  match deliver evs m with
  | Done _ m' => Some (saved_paths (effects (world m')))
  | _ => None
  end.

Definition recording_after (evs : list Event) (m : Machine) : option bool :=
  match deliver evs m with
  | Done _ m' => Some (save_stream_ (self m'))
  | _ => None
  end.

(** The viewer once s has switched recording on, and off. *)
Definition recording_on (v : RealSenseViewer) : RealSenseViewer :=
  set_frame_id_ (Int32.add (frame_id_ v) 1)
    (set_stream_id_ (Int32.add (stream_id_ v) 1)
       (set_save_stream_ true v)).

Definition recording_off (v : RealSenseViewer) : RealSenseViewer :=
  set_frame_id_ 0 (set_save_stream_ false v).

(** The number the z and Z keys clamp to: [0.01] stored in a [float]. *)
Definition range_floor : F32.t := F32.round F64.lit_0_01.

(** [1] as a [float]. *)
Definition spatial_floor : F32.t := F32.of_int 1.

(** The range sigma is the clamped number, or compares greater than
    [0.01]. *)
Definition at_or_above_range_floor (r : F32.t) : Prop :=
  r = range_floor \/ F64.ltb F64.lit_0_01 (F64.of_float r) = true.

(** The range sigma after some events, if they all return. *)
Definition sigma_r_after (evs : list Event) (m : Machine) : option F32.t :=
  match deliver evs m with
  | Done _ m' => Some (sigma_r_ (self m'))
  | _ => None
  end.

(** Every [exit] a computation can reach has the given code. *)
Definition exits_with {A : Type} (code : Z) (c : M A) : Prop :=
  forall m code' m', c m = Exited code' m' -> code' = code.

(** A property of the viewer that a computation keeps when it returns. *)
Definition preserves {A : Type} (P : RealSenseViewer -> Prop) (c : M A)
    : Prop :=
  forall m a m', P (self m) -> c m = Done a m' -> P (self m').

(** The frame counter is 0 while recording is off. *)
Definition counter_at_rest (v : RealSenseViewer) : Prop :=
  save_stream_ v = false -> frame_id_ v = 0.

(** The temporal filtering mode is one of the two of the k key. *)
Definition not_median (v : RealSenseViewer) : Prop :=
  temporal_filtering_ v <> RealSense_Median.

(** No frame has been displayed. *)
Definition nothing_displayed (v : RealSenseViewer) : Prop :=
  last_cloud_ v = None.

(** The two counters are representable. *)
Definition counters_in_range (v : RealSenseViewer) : Prop :=
  Int32.in_range (stream_id_ v) /\ Int32.in_range (frame_id_ v).

Definition is_LoopIteration (ev : Event) : bool :=
  match ev with
  | LoopIteration => true
  | _ => false
  end.

(** A host with one device, that can be opened, and a working directory
    in which 0001 exists already. *)
Definition host_with_0001 : Host :=
  {| connected := [ "231400041-03" ];
     grabber := fun _ => inr "231400041-03";
     cwd_directories := [ "0001" ];
     cwd_read_only := false |}.

(** The machine after s was pressed once in [fresh_world]. *)
Definition after_first_s : Machine :=
  {| self := recording_on constructed;
     world :=
       {| serial := "231400041-03";
          directories := [ "0001" ];
          read_only := false;
          effects :=
            [ PrintInfo "Record stream: ";
              PrintValue ("ON" ++ nl);
              DirectoryCreation "0001" true;
              overlay (recording_on constructed) ] |} |}.

(** A host without a device. *)
Definition host_without_device : Host :=
  {| connected := [];
     grabber := fun _ => inl "no device";
     cwd_directories := [];
     cwd_read_only := false |}.

(** A writable and empty working directory, nothing done yet. *)
Definition fresh_world : World :=
  {| serial := "231400041-03";
     directories := [];
     read_only := false;
     effects := [] |}.

(* ===================================================================== *)
(** ** Observations on runs *)

(** The machine a computation leaves, however it ends. *)
Definition final {A : Type} (r : Result A) : Machine :=
  match r with
  | Done _ m => m
  | Exited _ m => m
  | NullDereference m => m
  end.

(** A computation returns. *)
Definition returns {A : Type} (r : Result A) : bool :=
  match r with
  | Done _ _ => true
  | _ => false
  end.

(** The events of a session that is under way: all but the s key going
    down, which ends the session, and the closing of the window. *)
Definition within_session (ev : Event) : bool :=
  match ev with
  | KeyEvent event => negb (keyDown event && key_is event "s")
  | WindowClosed => false
  | _ => true
  end.

Definition is_frame (ev : Event) : bool :=
  match ev with
  | CloudEvent _ => true
  | _ => false
  end.

(** The number of frames delivered among the events. *)
Definition delivered (evs : list Event) : nat :=
  List.length (filter is_frame evs).

(** The p key goes down. *)
Definition p_down (ev : Event) : bool :=
  match ev with
  | KeyEvent event => keyDown event && key_is event "p"
  | _ => false
  end.

(** The files saved into the directory of a session, in order: the
    paths handed to [savePCDFileBinaryCompressed] that begin with the
    name of the directory and a slash. *)
Definition in_directory (stream_id : Z) (path : string) : bool :=
  String.prefix (Fmt.pad4 stream_id ++ "/") path.

Definition files_in (stream_id : Z) (effs : list Effect) : list string :=
  filter (in_directory stream_id) (saved_paths effs).

(** The clouds handed to [updatePointCloud], in order: what the display
    was asked to show. *)
Fixpoint displayed (effs : list Effect) : list Cloud :=
  match effs with
  | [] => []
  | UpdatePointCloud cloud _ :: rest => cloud :: displayed rest
  | _ :: rest => displayed rest
  end.

(** How often [addPointCloud] and [resetCamera] were called. *)
Fixpoint added (effs : list Effect) : nat :=
  match effs with
  | [] => O
  | AddPointCloud _ :: rest => S (added rest)
  | _ :: rest => added rest
  end.

Fixpoint camera_resets (effs : list Effect) : nat :=
  match effs with
  | [] => O
  | ResetCamera :: rest => S (camera_resets rest)
  | _ :: rest => camera_resets rest
  end.

(** The number of clouds the visualizer holds under the name "cloud". *)
Definition clouds_held (v : RealSenseViewer) : nat :=
  if has_cloud v then 1%nat else 0%nat.

(** A setting handed to the grabber that the grabber can take: a
    confidence threshold from 0 to 15, a window of at least 1 and a
    temporal filtering mode other than median. *)
Definition valid_push (e : Effect) : Prop :=
  match e with
  | SetConfidenceThreshold threshold => 0 <= threshold <= 15
  | EnableTemporalFiltering mode window =>
      1 <= window /\ mode <> RealSense_Median
  | _ => True
  end.

(** The integer settings are in their ranges. *)
Definition settings_valid (v : RealSenseViewer) : Prop :=
  1 <= window_ v
  /\ 0 <= threshold_ v <= 15
  /\ temporal_filtering_ v <> RealSense_Median.

(** A key-down event of p or of s: the two commands that write. *)
Definition writes (ev : Event) : bool :=
  match ev with
  | KeyEvent event =>
      keyDown event && (key_is event "p" || key_is event "s")
  | _ => false
  end.

(** The name [keyboardCallback] gives the file of a manual save. *)
Definition manual_path (device_serial : string) (stamp : Z) : string :=
  "RS_" ++ device_serial ++ "_" ++ Fmt.show_int stamp ++ ".pcd".

(** The events of complete sessions, one after the other: for each
    session s, its frames, s. *)
Fixpoint sessions (frames : list (list Cloud)) : list Event :=
  match frames with
  | [] => []
  | clouds :: rest =>
      (press "s" :: map CloudEvent clouds ++ [ press "s" ]) ++ sessions rest
  end.

(** The files of complete sessions, the first of which has the number
    [first]. *)
Fixpoint session_files (first : Z) (frames : list (list Cloud))
    : list string :=
  match frames with
  | [] => []
  | clouds :: rest =>
      map (stream_path first) (consecutive 1 (List.length clouds))
      ++ session_files (first + 1) rest
  end.

(** The line [printDeviceList] prints for a device. *)
Definition device_line (i : Z) (device_serial : string) : Effect :=
  Cout (nl ++ "  #" ++ Fmt.show_int i ++ "  " ++ device_serial).


(** [run] has returned because its loop has ended. *)
Definition ended (r : Result bool) : bool :=
  match r with
  | Done b _ => b
  | _ => false
  end.

(** A viewer that has displayed one frame and holds a newer one. *)
Definition after_a_display : Machine :=
  {| self :=
       set_has_cloud true
         (set_last_cloud_ (Some (Grabbed 5))
            (set_new_cloud_ (Some (Grabbed 6)) constructed));
     world := fresh_world |}.

(* ===================================================================== *)
(** * Properties *)

Arguments Int32.add : simpl never.
Arguments Fmt.pad4 : simpl never.
Arguments Fmt.show_int : simpl never.
Arguments F32.add : simpl never.
Arguments F32.round : simpl never.
Arguments F32.of_int : simpl never.
Arguments F32.leb : simpl never.
Arguments F64.add : simpl never.
Arguments F64.of_float : simpl never.
Arguments F64.leb : simpl never.
Arguments overlay : simpl never.
Arguments String.append : simpl never.

(** ** Machine integers *)

Lemma wrap_in_range z : Int32.in_range (Int32.wrap z).
Proof.
  unfold Int32.in_range, Int32.wrap, Int32.min_signed, Int32.max_signed.
  pose proof (Z.mod_pos_bound (z + 2 ^ 31) (2 ^ 32) ltac:(lia)). lia.
Qed.

Lemma wrap_small z : Int32.in_range z -> Int32.wrap z = z.
Proof.
  unfold Int32.in_range, Int32.wrap, Int32.min_signed, Int32.max_signed.
  intros H. rewrite Z.mod_small; lia.
Qed.

Lemma add_small a b : Int32.in_range (a + b) -> Int32.add a b = a + b.
Proof. apply wrap_small. Qed.

Lemma add_in_range a b : Int32.in_range (Int32.add a b).
Proof. apply wrap_in_range. Qed.

(** Adding one never gives the number back, wrap-around included. *)
Lemma add_one_neq a : Int32.in_range a -> Int32.add a 1 <> a.
Proof.
  unfold Int32.add, Int32.wrap, Int32.in_range, Int32.min_signed,
    Int32.max_signed.
  intros H E.
  destruct (Z.eq_dec a (2 ^ 31 - 1)) as [-> | N].
  - vm_compute in E. discriminate.
  - rewrite Z.mod_small in E; lia.
Qed.

(** ** Formatting *)

Example pad4_1 : Fmt.pad4 1 = "0001".
Proof. reflexivity. Qed.

Example pad4_neg : Fmt.pad4 (-5) = "00-5".
Proof. reflexivity. Qed.

Example pad4_wide : Fmt.pad4 123456 = "123456".
Proof. reflexivity. Qed.

Example pad4_0 : Fmt.pad4 0 = "0000".
Proof. reflexivity. Qed.

Lemma show_int_inj a b : Fmt.show_int a = Fmt.show_int b -> a = b.
Proof.
  unfold Fmt.show_int. intros E.
  apply DecimalZ.to_int_inj.
  pose proof (DecimalString.NilEmpty.isi (Z.to_int a)) as Ha.
  pose proof (DecimalString.NilEmpty.isi (Z.to_int b)) as Hb.
  rewrite E in Ha. congruence.
Qed.

Lemma strip0_zeros k s : Fmt.strip0 (Fmt.zeros k ++ s) = Fmt.strip0 s.
Proof. induction k as [| k IH]; simpl; auto. Qed.

(** The digits of a positive number do not start with a zero. *)
Lemma to_uint_head p :
  match Pos.to_uint p with
  | Decimal.Nil => False
  | Decimal.D0 _ => False
  | _ => True
  end.
Proof.
  pose proof (DecimalPos.Unsigned.to_uint_nonnil p) as Hnil.
  pose proof (DecimalPos.Unsigned.to_of (Pos.to_uint p)) as Hn.
  rewrite DecimalPos.Unsigned.of_to in Hn. simpl in Hn.
  pose proof (DecimalPos.Unsigned.to_uint_nonzero p) as Hz.
  destruct (Pos.to_uint p) as [| u | u | u | u | u | u | u | u | u | u] eqn:E;
    auto.
  unfold Decimal.unorm in Hn.
  pose proof (DecimalFacts.nzhead_nonzero (Decimal.D0 u)) as Hh.
  destruct (Decimal.nzhead (Decimal.D0 u)) eqn:Eh;
    solve [ congruence | exfalso; eapply Hh; reflexivity ].
Qed.

Lemma unpad_show_int z : Fmt.unpad (Fmt.show_int z) = Fmt.show_int z.
Proof.
  unfold Fmt.show_int. destruct z as [| p | p]; try reflexivity.
  simpl. pose proof (to_uint_head p) as H.
  destruct (Pos.to_uint p); try contradiction; reflexivity.
Qed.

Lemma unpad_pad4 z : Fmt.unpad (Fmt.pad4 z) = Fmt.show_int z.
Proof.
  unfold Fmt.pad4, Fmt.setw_fill0, Fmt.unpad.
  rewrite strip0_zeros. apply unpad_show_int.
Qed.

(** Different numbers give different padded names. *)
Lemma pad4_inj a b : Fmt.pad4 a = Fmt.pad4 b -> a = b.
Proof.
  intros E. apply show_int_inj.
  rewrite <- (unpad_pad4 a), <- (unpad_pad4 b). now rewrite E.
Qed.

Lemma append_inj_l s t u : s ++ t = s ++ u -> t = u.
Proof. induction s as [| c s IH]; simpl; intros E; [ | injection E ]; auto. Qed.

Lemma length_append s t :
  String.length (s ++ t) = (String.length s + String.length t)%nat.
Proof. induction s as [| c s IH]; simpl; auto. Qed.

Lemma append_inj_r s t u : t ++ u = s ++ u -> t = s.
Proof.
  intros E.
  assert (L : String.length t = String.length s).
  { apply (f_equal String.length) in E.
    rewrite !length_append in E. lia. }
  revert s E L. induction t as [| c t IH]; intros [| d s] E L;
    simpl in *; try discriminate; auto.
  injection E as -> E. f_equal. apply IH; auto.
Qed.

Lemma stream_path_inj s f g : stream_path s f = stream_path s g -> f = g.
Proof.
  unfold stream_path. intros E.
  apply append_inj_l in E. apply append_inj_l in E.
  apply append_inj_r in E. now apply pad4_inj.
Qed.

(** ** Floating point: no NaN from rounding, comparison is total *)

Lemma shr_1_nonneg mrs : 0 <= shr_m mrs -> 0 <= shr_m (shr_1 mrs).
Proof.
  destruct mrs as [m r s]. simpl.
  destruct m as [| p | p]; simpl; try lia.
  - destruct p; simpl; lia.
Qed.

Lemma iter_pos_nonneg p mrs :
  0 <= shr_m mrs -> 0 <= shr_m (iter_pos shr_1 p mrs).
Proof.
  revert mrs. induction p as [p IH | p IH |]; intros mrs H; simpl.
  - apply IH, IH, shr_1_nonneg, H.
  - apply IH, IH, H.
  - apply shr_1_nonneg, H.
Qed.

Lemma shr_nonneg mrs e n : 0 <= shr_m mrs -> 0 <= shr_m (fst (shr mrs e n)).
Proof.
  intros H. unfold shr. destruct n; simpl; auto using iter_pos_nonneg.
Qed.

Lemma shr_fexp_nonneg prec emax m e l :
  0 <= m -> 0 <= shr_m (fst (shr_fexp prec emax m e l)).
Proof.
  intros H. unfold shr_fexp. apply shr_nonneg.
  destruct l as [| []]; simpl; auto.
Qed.

Lemma round_nearest_even_nonneg m l : 0 <= m -> 0 <= round_nearest_even m l.
Proof.
  intros H. unfold round_nearest_even.
  destruct l as [| []]; try lia. destruct (Z.even m); lia.
Qed.

Lemma binary_round_aux_not_nan prec emax sx mx ex lx :
  0 <= mx -> binary_round_aux prec emax sx mx ex lx <> S754_nan.
Proof.
  intros H. unfold binary_round_aux.
  pose proof (shr_fexp_nonneg prec emax mx ex lx H) as H1.
  destruct (shr_fexp prec emax mx ex lx) as [mrs' e'].
  simpl in H1.
  pose proof (shr_fexp_nonneg prec emax _ e' loc_Exact
                (round_nearest_even_nonneg _ (loc_of_shr_record mrs') H1)) as H2.
  destruct (shr_fexp prec emax _ e' loc_Exact) as [mrs'' e''].
  simpl in H2.
  destruct (shr_m mrs'') as [| p | p]; try discriminate.
  - destruct (e'' <=? emax - prec); discriminate.
  - lia.
Qed.

Lemma binary_round_not_nan prec emax sx mx ex :
  binary_round prec emax sx mx ex <> S754_nan.
Proof.
  unfold binary_round.
  destruct (shl_align mx ex _) as [mz ez].
  apply binary_round_aux_not_nan. lia.
Qed.

Lemma binary_normalize_not_nan prec emax m e szero :
  binary_normalize prec emax m e szero <> S754_nan.
Proof.
  unfold binary_normalize. destruct m; try discriminate;
    apply binary_round_not_nan.
Qed.

Lemma SFadd_not_nan prec emax x sy my ey :
  x <> S754_nan -> SFadd prec emax x (S754_finite sy my ey) <> S754_nan.
Proof.
  intros H. destruct x as [sx | sx | | sx mx ex]; simpl;
    try discriminate; try contradiction.
  apply binary_normalize_not_nan.
Qed.

Lemma SFcompare_antisym x y c :
  SFcompare x y = Some c -> SFcompare y x = Some (CompOpp c).
Proof.
  destruct x as [sx | sx | | sx mx ex], y as [sy | sy | | sy my ey]; simpl;
    try discriminate; intros E; injection E as <-;
    try (destruct sx; reflexivity); try (destruct sy; reflexivity);
    try (destruct sx, sy; reflexivity).
  destruct sx, sy; try reflexivity.
  - rewrite (Z.compare_antisym ey ex).
    destruct (ey ?= ex); simpl; auto.
    change (Pos.compare_cont Eq my mx) with (my ?= mx)%positive.
    change (Pos.compare_cont Eq mx my) with (mx ?= my)%positive.
    rewrite (Pos.compare_antisym my mx).
    destruct (my ?= mx)%positive; reflexivity.
  - rewrite (Z.compare_antisym ey ex).
    destruct (ey ?= ex); simpl; auto.
    change (Pos.compare_cont Eq my mx) with (my ?= mx)%positive.
    change (Pos.compare_cont Eq mx my) with (mx ?= my)%positive.
    rewrite (Pos.compare_antisym my mx).
    destruct (my ?= mx)%positive; reflexivity.
Qed.

Lemma SFcompare_total x y :
  x <> S754_nan -> y <> S754_nan -> exists c, SFcompare x y = Some c.
Proof.
  destruct x, y; simpl; intros Hx Hy; try contradiction; eauto.
Qed.

(** What is not below or equal is above. *)
Lemma SFleb_false_ltb x y :
  x <> S754_nan -> y <> S754_nan -> SFleb x y = false -> SFltb y x = true.
Proof.
  intros Hx Hy. destruct (SFcompare_total x y Hx Hy) as [c E].
  unfold SFleb, SFltb. rewrite E, (SFcompare_antisym _ _ _ E).
  destruct c; simpl; congruence.
Qed.

Lemma SFltb_leb x y : SFltb x y = true -> SFleb x y = true.
Proof.
  unfold SFltb, SFleb. destruct (SFcompare x y) as [[]|]; congruence.
Qed.

Lemma SFleb_not_nan x y : SFleb x y = true -> y <> S754_nan.
Proof.
  intros H ->. unfold SFleb in H. destruct x; discriminate.
Qed.

Lemma F32_round_not_nan x : x <> S754_nan -> F32.round x <> S754_nan.
Proof.
  unfold F32.round. destruct x; auto. intros _. apply binary_round_not_nan.
Qed.

Lemma F64_of_float_not_nan x : x <> S754_nan -> F64.of_float x <> S754_nan.
Proof.
  unfold F64.of_float. destruct x; auto. intros _. apply binary_round_not_nan.
Qed.

(** The two literals are the quotients 1/100 and 5/100, rounded. *)
Lemma lit_0_01_is_one_hundredth :
  F64.div (F64.of_int 1) (F64.of_int 100) = F64.lit_0_01.
Proof. vm_compute. reflexivity. Qed.

Lemma lit_0_05_is_five_hundredths :
  F64.div (F64.of_int 5) (F64.of_int 100) = F64.lit_0_05.
Proof. vm_compute. reflexivity. Qed.

Lemma default_sigma_r_value :
  default_sigma_r = S754_finite false 13421773 (-28).
Proof. vm_compute. reflexivity. Qed.

Lemma range_floor_value : range_floor = S754_finite false 10737418 (-30).
Proof. vm_compute. reflexivity. Qed.

(** The clamped number is below [0.01]: the [float] nearest to one
    hundredth is 10737418 * 2^-30 = 0.00999999977648258209228515625. *)
Lemma range_floor_below_0_01 :
  F64.ltb (F64.of_float range_floor) F64.lit_0_01 = true
  /\ F64.leb F64.lit_0_01 (F64.of_float range_floor) = false.
Proof. vm_compute. auto. Qed.

(** ** Reasoning about the callbacks *)

Ltac run_monad :=
  cbv [bind ret this update emit env when exit null_dereference
       displaySettings]; simpl.

(** ** The keyboard dispatch, key by key *)

Lemma dispatch_up event m :
  keyDown event = false -> keyboardCallback event m = Done tt m.
Proof. unfold keyboardCallback. intros ->. reflexivity. Qed.

Lemma dispatch_w c m :
  c = "w"%char \/ c = "W"%char ->
  keyboardCallback {| keyDown := true; getKeyCode := c |} m
  = (on_window {| keyDown := true; getKeyCode := c |} ;; displaySettings) m.
Proof. intros [-> | ->]; reflexivity. Qed.

Lemma dispatch_t c m :
  c = "t"%char \/ c = "T"%char ->
  keyboardCallback {| keyDown := true; getKeyCode := c |} m
  = (on_threshold {| keyDown := true; getKeyCode := c |} ;; displaySettings) m.
Proof. intros [-> | ->]; reflexivity. Qed.

Lemma dispatch_k m :
  keyboardCallback {| keyDown := true; getKeyCode := "k" |} m
  = (on_temporal ;; displaySettings) m.
Proof. reflexivity. Qed.

Lemma dispatch_b m :
  keyboardCallback {| keyDown := true; getKeyCode := "b" |} m
  = (on_bilateral ;; displaySettings) m.
Proof. reflexivity. Qed.

Lemma dispatch_a c m :
  c = "a"%char \/ c = "A"%char ->
  keyboardCallback {| keyDown := true; getKeyCode := c |} m
  = (on_sigma_s {| keyDown := true; getKeyCode := c |} ;; displaySettings) m.
Proof. intros [-> | ->]; reflexivity. Qed.

Lemma dispatch_z c m :
  c = "z"%char \/ c = "Z"%char ->
  keyboardCallback {| keyDown := true; getKeyCode := c |} m
  = (on_sigma_r {| keyDown := true; getKeyCode := c |} ;; displaySettings) m.
Proof. intros [-> | ->]; reflexivity. Qed.

Lemma dispatch_p m :
  keyboardCallback {| keyDown := true; getKeyCode := "p" |} m
  = (on_save ;; displaySettings) m.
Proof. reflexivity. Qed.

Lemma dispatch_s m :
  keyboardCallback {| keyDown := true; getKeyCode := "s" |} m
  = (on_record ;; displaySettings) m.
Proof. reflexivity. Qed.

Lemma dispatch_other event m :
  is_command event = false ->
  keyboardCallback event m = when (keyDown event) displaySettings m.
Proof.
  unfold is_command, keyboardCallback.
  destruct (keyDown event); simpl; [ | reflexivity ].
  unfold key_is. intros H.
  repeat (apply orb_false_elim in H; destruct H as [-> H]).
  reflexivity.
Qed.

(** ** Exits of the callbacks *)

Create HintDb exits.

Lemma exits_ret {A} code (a : A) : exits_with code (ret a).
Proof. intros m c m' E. discriminate. Qed.

Lemma exits_bind {A B} code (c : M A) (k : A -> M B) :
  exits_with code c ->
  (forall a, exits_with code (k a)) ->
  exits_with code (bind c k).
Proof.
  intros Hc Hk m c' m' E. unfold bind in E.
  destruct (c m) as [a m1 | c1 m1 | m1] eqn:Ec.
  - eapply Hk; eauto.
  - injection E as -> _. eapply Hc; eauto.
  - discriminate.
Qed.

Lemma exits_this code : exits_with code this.
Proof. intros m c m' E. discriminate. Qed.

Lemma exits_env code : exits_with code env.
Proof. intros m c m' E. discriminate. Qed.

Lemma exits_update code f : exits_with code (update f).
Proof. intros m c m' E. discriminate. Qed.

Lemma exits_emit code e : exits_with code (emit e).
Proof. intros m c m' E. discriminate. Qed.

Lemma exits_null {A} code : exits_with code (@null_dereference A).
Proof. intros m c m' E. discriminate. Qed.

Lemma exits_exit {A} code : exits_with code (@exit A code).
Proof. intros m c m' E. injection E as <- _. reflexivity. Qed.

Lemma exits_CreateDirectory code name :
  exits_with code (CreateDirectory name).
Proof. intros m c m' E. discriminate. Qed.

Lemma exits_when code b c :
  exits_with code c -> exits_with code (when b c).
Proof. intros H. destruct b; simpl; auto using exits_ret. Qed.

#[local] Hint Resolve exits_ret exits_this exits_env exits_update exits_emit
  exits_null exits_exit exits_CreateDirectory exits_when : exits.

Ltac exits :=
  repeat first
    [ apply exits_bind; [ | intros ]
    | apply exits_when
    | solve [ auto with exits ]
    | match goal with
      | |- exits_with _ (if ?b then _ else _) => destruct b
      | |- exits_with _ (match ?x with _ => _ end) => destruct x
      end ].

Lemma exits_displaySettings code : exits_with code displaySettings.
Proof. unfold displaySettings. exits. Qed.

Lemma exits_savePointCloud code cloud : exits_with code (savePointCloud cloud).
Proof. unfold savePointCloud. exits. Qed.

Lemma exits_createStreamDirectory : exits_with (-1) createStreamDirectory.
Proof. unfold createStreamDirectory. exits. Qed.

#[local] Hint Resolve exits_displaySettings exits_savePointCloud
  exits_createStreamDirectory : exits.

Lemma exits_keyboardCallback event : exits_with (-1) (keyboardCallback event).
Proof.
  unfold keyboardCallback, on_window, on_threshold, on_temporal,
    on_bilateral, on_sigma_s, on_sigma_r, on_save, on_record.
  exits.
Qed.

Lemma exits_cloudCallback cloud : exits_with (-1) (cloudCallback cloud).
Proof.
  unfold cloudCallback. exits.
Qed.

Lemma exits_show_new_cloud : exits_with (-1) show_new_cloud.
Proof. unfold show_new_cloud. exits. Qed.

Lemma exits_handle ev : exits_with (-1) (handle ev).
Proof.
  destruct ev; simpl;
    auto using exits_keyboardCallback, exits_cloudCallback,
      exits_show_new_cloud with exits.
Qed.

Lemma exits_run_loop evs : exits_with (-1) (run_loop evs).
Proof.
  induction evs as [| ev evs IH]; simpl.
  - exits.
  - apply exits_bind; [ auto with exits | intros v ].
    destruct (wasStopped v); [ auto with exits | ].
    apply exits_bind; auto using exits_handle.
Qed.

(** The only exit code [run] can end the process with is -1. *)
Lemma exits_run evs : exits_with (-1) (run evs).
Proof.
  unfold run. apply exits_bind; [ auto with exits | intros _ ].
  apply exits_bind; [ apply exits_run_loop | intros ended ]. exits.
Qed.

(** ** Invariants of the viewer *)

Lemma preserves_ret {A} P (a : A) : preserves P (ret a).
Proof. intros m a' m' H E. injection E as _ <-. exact H. Qed.

Lemma preserves_bind {A B} P (c : M A) (k : A -> M B) :
  preserves P c -> (forall a, preserves P (k a)) -> preserves P (bind c k).
Proof.
  intros Hc Hk m b m' H E. unfold bind in E.
  destruct (c m) as [a m1 | c1 m1 | m1] eqn:Ec; try discriminate.
  eapply Hk; [ | exact E ]. eapply Hc; eauto.
Qed.

Lemma preserves_this P : preserves P this.
Proof. intros m a m' H E. injection E as _ <-. exact H. Qed.

Lemma preserves_env P : preserves P env.
Proof. intros m a m' H E. injection E as _ <-. exact H. Qed.

Lemma preserves_emit P e : preserves P (emit e).
Proof. intros m a m' H E. injection E as _ <-. exact H. Qed.

Lemma preserves_exit {A} P code : preserves P (@exit A code).
Proof. intros m a m' H E. discriminate. Qed.

Lemma preserves_null {A} P : preserves P (@null_dereference A).
Proof. intros m a m' H E. discriminate. Qed.

Lemma preserves_CreateDirectory P name : preserves P (CreateDirectory name).
Proof. intros m a m' H E. injection E as _ <-. exact H. Qed.

Lemma preserves_update P f :
  (forall v, P v -> P (f v)) -> preserves P (update f).
Proof. intros Hf m a m' H E. injection E as _ <-. simpl. auto. Qed.

Lemma preserves_when P b c : preserves P c -> preserves P (when b c).
Proof. intros H. destruct b; simpl; auto using preserves_ret. Qed.

Create HintDb keeps.

#[local] Hint Resolve preserves_ret preserves_this preserves_env
  preserves_emit preserves_exit preserves_null preserves_CreateDirectory
  : keeps.

(** [keeps field] walks through a computation; [field] proves that an
    assignment keeps the property. *)
Ltac keeps field :=
  repeat first
    [ solve [ auto with keeps ]
    | apply preserves_bind; [ | intros ]
    | apply preserves_when
    | apply preserves_update; solve [ field ]
    | match goal with
      | |- preserves _ (if ?b then _ else _) => destruct b
      | |- preserves _ (match ?x with _ => _ end) => destruct x
      end ].

Ltac unfold_handlers :=
  unfold keyboardCallback, cloudCallback, show_new_cloud, on_window,
    on_threshold, on_temporal, on_bilateral, on_sigma_s, on_sigma_r,
    on_save, displaySettings.

Lemma preserves_deliver P evs :
  (forall ev, In ev evs -> preserves P (handle ev)) ->
  preserves P (deliver evs).
Proof.
  induction evs as [| ev evs IH]; intros H; simpl.
  - apply preserves_ret.
  - apply preserves_bind; [ apply H; now left | intros _ ].
    apply IH. intros ev' I. apply H. now right.
Qed.

(** *** The median mode is never entered *)

Lemma not_median_handle ev : preserves not_median (handle ev).
Proof.
  destruct ev; simpl; unfold_handlers;
    unfold on_record, createStreamDirectory, savePointCloud;
    keeps ltac:(unfold not_median; intros [] N; simpl in *;
                solve [ exact N | discriminate ]).
Qed.

Lemma median_is_unreachable (evs : list Event) (w : World) (m' : Machine) :
  deliver evs (start w) = Done tt m' ->
  temporal_filtering_ (self m') <> RealSense_Median.
Proof.
  intros E.
  apply (preserves_deliver not_median evs
           (fun ev _ => not_median_handle ev) (start w) tt m');
    [ discriminate | exact E ].
Qed.

(** *** Nothing is displayed before the loop takes a frame *)

Lemma nothing_displayed_handle ev :
  is_LoopIteration ev = false -> preserves nothing_displayed (handle ev).
Proof.
  destruct ev; simpl; try discriminate; intros _; unfold_handlers;
    unfold on_record, createStreamDirectory, savePointCloud;
    keeps ltac:(unfold nothing_displayed; intros [] N; simpl in *; exact N).
Qed.

Lemma nothing_displayed_without_iteration
    (evs : list Event) (w : World) (m' : Machine) :
  forallb (fun ev => negb (is_LoopIteration ev)) evs = true ->
  deliver evs (start w) = Done tt m' ->
  last_cloud_ (self m') = None.
Proof.
  intros F E.
  apply (preserves_deliver nothing_displayed evs) with (m := start w) (a := tt);
    [ | reflexivity | exact E ].
  intros ev I. apply nothing_displayed_handle.
  rewrite forallb_forall in F. specialize (F ev I).
  now destruct (is_LoopIteration ev).
Qed.

(** *** The counters *)

Lemma counters_in_range_handle ev : preserves counters_in_range (handle ev).
Proof.
  destruct ev; simpl; unfold_handlers;
    unfold on_record, createStreamDirectory, savePointCloud;
    keeps ltac:(unfold counters_in_range; intros [] [N1 N2]; simpl in *;
                split;
                solve [ assumption | apply add_in_range
                      | vm_compute; split; discriminate ]).
Qed.

Lemma counter_at_rest_on_record : preserves counter_at_rest on_record.
Proof.
  intros m a m' _ E. unfold on_record, createStreamDirectory, CreateDirectory in E.
  revert E. run_monad.
  destruct (save_stream_ (self m)) eqn:S; simpl.
  - intros E. injection E as _ <-. intros _. reflexivity.
  - destruct (creatable _ _); simpl; intros E; [ | discriminate ].
    injection E as _ <-. intros H. discriminate H.
Qed.

Lemma counter_at_rest_cloudCallback cloud :
  preserves counter_at_rest (cloudCallback cloud).
Proof.
  intros m a m' H E. unfold cloudCallback, savePointCloud in E.
  revert E. run_monad.
  destruct (wasStopped (self m)); simpl.
  - intros E. injection E as _ <-. exact H.
  - destruct (save_stream_ (self m)) eqn:S; simpl;
      intros E; injection E as _ <-; unfold counter_at_rest in *; simpl.
    + rewrite S. discriminate.
    + exact H.
Qed.

#[local] Hint Resolve counter_at_rest_on_record : keeps.

Lemma counter_at_rest_handle ev : preserves counter_at_rest (handle ev).
Proof.
  destruct ev; simpl; [ | apply counter_at_rest_cloudCallback | | ];
    unfold_handlers;
    keeps ltac:(unfold counter_at_rest; intros [] N; simpl in *; exact N).
Qed.

(** Whatever has happened since the viewer was constructed: when
    recording is off the frame counter is 0, and both counters are
    representable. *)
Lemma counters_of_reachable_states
    (evs : list Event) (w : World) (m' : Machine) :
  deliver evs (start w) = Done tt m' ->
  (save_stream_ (self m') = false -> frame_id_ (self m') = 0)
  /\ Int32.in_range (stream_id_ (self m'))
  /\ Int32.in_range (frame_id_ (self m')).
Proof.
  intros E. split.
  - apply (preserves_deliver counter_at_rest evs
             (fun ev _ => counter_at_rest_handle ev) (start w) tt m');
      [ intros _; reflexivity | exact E ].
  - apply (preserves_deliver counters_in_range evs
             (fun ev _ => counters_in_range_handle ev) (start w) tt m');
      [ vm_compute; repeat split; discriminate | exact E ].
Qed.

(** ** The recorder *)

Lemma deliver_app evs1 evs2 m :
  deliver (evs1 ++ evs2)%list m = (deliver evs1 ;; deliver evs2) m.
Proof.
  revert m. induction evs1 as [| ev evs1 IH]; intros m; simpl.
  - reflexivity.
  - unfold bind in *. destruct (handle ev m); auto.
Qed.

Lemma saved_paths_app l1 l2 :
  saved_paths (l1 ++ l2)%list = (saved_paths l1 ++ saved_paths l2)%list.
Proof.
  induction l1 as [| e l1 IH]; simpl; auto.
  destruct e; simpl; rewrite ?IH; auto.
Qed.

(** Switching recording on, when the directory can be created. *)
Lemma record_switched_on (m : Machine) :
  save_stream_ (self m) = false ->
  creatable (Fmt.pad4 (Int32.add (stream_id_ (self m)) 1)) (world m) = true ->
  keyboardCallback (key_down "s") m
  = Done tt
      {| self := recording_on (self m);
         world :=
           {| serial := serial (world m);
              directories :=
                Fmt.pad4 (Int32.add (stream_id_ (self m)) 1)
                :: directories (world m);
              read_only := read_only (world m);
              effects :=
                List.app (effects (world m))
                  [ PrintInfo "Record stream: ";
                    PrintValue ("ON" ++ nl);
                    DirectoryCreation
                      (Fmt.pad4 (Int32.add (stream_id_ (self m)) 1)) true;
                    overlay (recording_on (self m)) ] |} |}.
Proof.
  intros Hoff Hok. unfold key_down. rewrite dispatch_s.
  unfold on_record, createStreamDirectory, CreateDirectory.
  run_monad. rewrite Hoff. simpl.
  destruct m as [v [sn dirs ro effs]]. simpl in *.
  unfold creatable in *. simpl in *.
  rewrite Hok. simpl. rewrite <- !List.app_assoc. reflexivity.
Qed.

(** Switching recording off. *)
Lemma record_switched_off (m : Machine) :
  save_stream_ (self m) = true ->
  keyboardCallback (key_down "s") m
  = Done tt
      {| self := recording_off (self m);
         world :=
           {| serial := serial (world m);
              directories := directories (world m);
              read_only := read_only (world m);
              effects :=
                List.app (effects (world m))
                  [ PrintInfo "Record stream: ";
                    PrintValue ("OFF" ++ nl);
                    overlay (recording_off (self m)) ] |} |}.
Proof.
  intros Hon. unfold key_down. rewrite dispatch_s. unfold on_record.
  run_monad. rewrite Hon. simpl.
  rewrite <- !List.app_assoc. reflexivity.
Qed.

(** One frame while recording. *)
Lemma frame_recorded (cloud : Cloud) (m : Machine) :
  save_stream_ (self m) = true ->
  wasStopped (self m) = false ->
  cloudCallback cloud m
  = Done tt
      {| self :=
           set_frame_id_ (Int32.add (frame_id_ (self m)) 1)
             (set_new_cloud_ (Some (incoming (self m) cloud)) (self m));
         world :=
           {| serial := serial (world m);
              directories := directories (world m);
              read_only := read_only (world m);
              effects :=
                List.app (effects (world m))
                  [ SavePCD (stream_path (stream_id_ (self m))
                               (frame_id_ (self m)))
                      (incoming (self m) cloud) ] |} |}.
Proof.
  intros Hon Hrun. unfold cloudCallback, savePointCloud. run_monad.
  rewrite Hrun, Hon. simpl. reflexivity.
Qed.

(** One frame after the window was closed: the pending cloud, the
    counters and the files are as before. *)
Lemma frame_after_stop (cloud : Cloud) (m : Machine) :
  wasStopped (self m) = true ->
  cloudCallback cloud m = Done tt m.
Proof.
  intros Hstop. unfold cloudCallback. run_monad. now rewrite Hstop.
Qed.

Lemma stream_saves_same v v' f clouds :
  stream_id_ v' = stream_id_ v ->
  with_bilateral_ v' = with_bilateral_ v ->
  sigma_s_ v' = sigma_s_ v ->
  sigma_r_ v' = sigma_r_ v ->
  stream_saves v' f clouds = stream_saves v f clouds.
Proof.
  intros E1 E2 E3 E4. revert f.
  induction clouds as [| c clouds IH]; intros f; simpl; auto.
  unfold incoming. now rewrite E1, E2, E3, E4, IH.
Qed.

Lemma frames_recorded (clouds : list Cloud) (m : Machine) :
  save_stream_ (self m) = true ->
  wasStopped (self m) = false ->
  Int32.in_range (frame_id_ (self m)) ->
  frame_id_ (self m) + Z.of_nat (List.length clouds) <= Int32.max_signed ->
  exists m',
    deliver (map CloudEvent clouds) m = Done tt m'
    /\ effects (world m')
       = List.app (effects (world m))
           (stream_saves (self m) (frame_id_ (self m)) clouds)
    /\ frame_id_ (self m')
       = frame_id_ (self m) + Z.of_nat (List.length clouds)
    /\ self m'
       = set_frame_id_ (frame_id_ (self m'))
           (set_new_cloud_ (new_cloud_ (self m')) (self m))
    /\ serial (world m') = serial (world m)
    /\ directories (world m') = directories (world m)
    /\ read_only (world m') = read_only (world m).
Proof.
  revert m. induction clouds as [| c clouds IH]; intros m Hon Hrun Hr Hle.
  - exists m. simpl. rewrite List.app_nil_r, Z.add_0_r.
    repeat split; auto. now destruct m as [[] ?].
  - simpl. unfold bind at 1. rewrite (frame_recorded c m Hon Hrun).
    assert (A : Int32.add (frame_id_ (self m)) 1 = frame_id_ (self m) + 1).
    { apply add_small. unfold Int32.in_range, Int32.max_signed in *.
      simpl List.length in Hle. lia. }
    match goal with
    | |- exists m', deliver _ ?m1 = _ /\ _ =>
        destruct (IH m1) as [m' [E [Eff [Fid [Self [Sn [Dirs Ro]]]]]]]
    end; simpl; auto.
    + rewrite A. unfold Int32.in_range, Int32.max_signed in *.
      simpl List.length in Hle. lia.
    + rewrite A. simpl List.length in Hle. lia.
    + exists m'. simpl in *.
      split; [ exact E | ].
      split.
      { rewrite Eff, <- List.app_assoc. simpl. rewrite A. do 2 f_equal.
        apply stream_saves_same; reflexivity. }
      split; [ rewrite Fid, A; lia | ].
      split; [ | auto ].
      set (f' := frame_id_ (self m')) in *.
      set (n' := new_cloud_ (self m')) in *.
      rewrite Self. destruct m as [[] ?]. reflexivity.
Qed.

Lemma saved_paths_stream_saves v f clouds :
  saved_paths (stream_saves v f clouds)
  = map (stream_path (stream_id_ v)) (consecutive f (List.length clouds)).
Proof.
  revert f. induction clouds as [| c clouds IH]; intros f; simpl; auto.
  now rewrite IH.
Qed.

Lemma in_consecutive x f n :
  In x (consecutive f n) -> f <= x < f + Z.of_nat n.
Proof.
  revert f. induction n as [| n IH]; intros f; simpl.
  - contradiction.
  - intros [<- | I]; [ lia | apply IH in I; lia ].
Qed.

Lemma NoDup_consecutive f n : NoDup (consecutive f n).
Proof.
  revert f. induction n as [| n IH]; intros f; simpl; constructor; auto.
  intros I. apply in_consecutive in I. lia.
Qed.

Lemma NoDup_stream_paths s f n :
  NoDup (map (stream_path s) (consecutive f n)).
Proof.
  apply Finite.Injective_map_NoDup.
  - intros a b. apply stream_path_inj.
  - apply NoDup_consecutive.
Qed.

Lemma saved_paths_switched_on effs a b c ok v :
  saved_paths
    (effs ++ [ PrintInfo a; PrintValue b; DirectoryCreation c ok; overlay v ])%list
  = saved_paths effs.
Proof.
  rewrite saved_paths_app. unfold overlay. simpl. apply List.app_nil_r.
Qed.

Lemma saved_paths_switched_off effs a b v :
  saved_paths (effs ++ [ PrintInfo a; PrintValue b; overlay v ])%list
  = saved_paths effs.
Proof.
  rewrite saved_paths_app. unfold overlay. simpl. apply List.app_nil_r.
Qed.

(** Against C4 as stated: a frame delivered between the closing of the
    window and the stop of the grabber is not saved, although recording
    is on. *)
Lemma frame_after_close_is_not_saved :
  recording_after [ press "s"; WindowClosed ] (start fresh_world) = Some true
  /\ saved_after [ press "s"; WindowClosed ] (start fresh_world) = Some []
  /\ recording_after [ press "s"; WindowClosed; CloudEvent (Grabbed 7) ]
       (start fresh_world) = Some true
  /\ saved_after [ press "s"; WindowClosed; CloudEvent (Grabbed 7) ]
       (start fresh_world) = Some [].
Proof. vm_compute. auto. Qed.

(** Frames delivered one after the other while recording is on and the
    viewer is not stopped. *)
Lemma frames_saved_consecutively (clouds : list Cloud) (m : Machine) :
  save_stream_ (self m) = true ->
  wasStopped (self m) = false ->
  Int32.in_range (frame_id_ (self m)) ->
  frame_id_ (self m) + Z.of_nat (List.length clouds) <= Int32.max_signed ->
  exists m',
    deliver (map CloudEvent clouds) m = Done tt m'
    /\ effects (world m')
       = List.app (effects (world m))
           (stream_saves (self m) (frame_id_ (self m)) clouds)
    /\ List.length (stream_saves (self m) (frame_id_ (self m)) clouds)
       = List.length clouds
    /\ saved_paths (stream_saves (self m) (frame_id_ (self m)) clouds)
       = map (stream_path (stream_id_ (self m)))
           (consecutive (frame_id_ (self m)) (List.length clouds))
    /\ NoDup (map (stream_path (stream_id_ (self m)))
                (consecutive (frame_id_ (self m)) (List.length clouds)))
    /\ frame_id_ (self m')
       = frame_id_ (self m) + Z.of_nat (List.length clouds)
    /\ stream_id_ (self m') = stream_id_ (self m)
    /\ save_stream_ (self m') = true.
Proof.
  intros Hon Hrun Hr Hle.
  destruct (frames_recorded clouds m Hon Hrun Hr Hle)
    as [m' [E [Eff [Fid [Self _]]]]].
  exists m'. split; [ exact E | ]. split; [ exact Eff | ].
  split.
  { clear. generalize (frame_id_ (self m)).
    induction clouds as [| c clouds IH]; intros f; simpl; auto. }
  split; [ apply saved_paths_stream_saves | ].
  split; [ apply NoDup_stream_paths | ].
  split; [ exact Fid | ].
  rewrite Self. simpl. auto.
Qed.

(** Against C1 as stated: the three files of the scenario are numbered
    from 0001, not from 0000, and carry the extension of the point cloud
    format. *)
Lemma first_session_files :
  saved_after
    [ press "s"; CloudEvent (Grabbed 10); CloudEvent (Grabbed 11);
      CloudEvent (Grabbed 12); press "s" ] (start fresh_world)
  = Some [ "0001/0001.pcd"; "0001/0002.pcd"; "0001/0003.pcd" ]
  /\ saved_after
       [ press "s"; CloudEvent (Grabbed 10); CloudEvent (Grabbed 11);
         CloudEvent (Grabbed 12); press "s" ] (start fresh_world)
     <> Some [ "0001/0000"; "0001/0001"; "0001/0002" ]
  /\ saved_after
       [ press "s"; CloudEvent (Grabbed 10); CloudEvent (Grabbed 11);
         CloudEvent (Grabbed 12); press "s" ] (start fresh_world)
     <> Some [ "0001/0000.pcd"; "0001/0001.pcd"; "0001/0002.pcd" ].
Proof. vm_compute. repeat split; discriminate. Qed.

(** C1, amended. From the constructed viewer (recording off, counters
    0), in a working directory where 0001 can be created: s creates the
    directory 0001 and switches recording on; the next three frames are
    saved as 0001/0001.pcd, 0001/0002.pcd and 0001/0003.pcd; s again
    switches recording off and sets the frame counter to 0. *)
Theorem first_session_scenario (w : World) (c1 c2 c3 : Cloud) :
  creatable "0001" w = true ->
  exists m1 m2 m3,
    keyboardCallback (key_down "s") (start w) = Done tt m1
    /\ save_stream_ (self m1) = true
    /\ directories (world m1) = "0001" :: directories w
    /\ In (DirectoryCreation "0001" true) (effects (world m1))
    /\ deliver [ CloudEvent c1; CloudEvent c2; CloudEvent c3 ] m1 = Done tt m2
    /\ effects (world m2)
       = List.app (effects (world m1))
           [ SavePCD "0001/0001.pcd" c1;
             SavePCD "0001/0002.pcd" c2;
             SavePCD "0001/0003.pcd" c3 ]
    /\ keyboardCallback (key_down "s") m2 = Done tt m3
    /\ save_stream_ (self m3) = false
    /\ frame_id_ (self m3) = 0
    /\ saved_paths (effects (world m3))
       = List.app (saved_paths (effects w))
           [ "0001/0001.pcd"; "0001/0002.pcd"; "0001/0003.pcd" ].
Proof.
  intros H.
  pose proof (record_switched_on (start w) eq_refl H) as E1.
  match type of E1 with _ = Done tt ?x => set (m1 := x) in * end.
  assert (On1 : save_stream_ (self m1) = true) by reflexivity.
  assert (Run1 : wasStopped (self m1) = false) by reflexivity.
  assert (Fid1 : frame_id_ (self m1) = 1) by reflexivity.
  destruct (frames_recorded [ c1; c2; c3 ] m1 On1 Run1)
    as [m2 [E2 [Eff2 [_ [Self2 _]]]]].
  { rewrite Fid1. vm_compute. split; discriminate. }
  { rewrite Fid1. vm_compute. discriminate. }
  assert (On2 : save_stream_ (self m2) = true) by (rewrite Self2; reflexivity).
  pose proof (record_switched_off m2 On2) as E3.
  match type of E3 with _ = Done tt ?x => set (m3 := x) in * end.
  exists m1, m2, m3.
  split; [ exact E1 | ]. split; [ reflexivity | ]. split; [ reflexivity | ].
  split. { simpl. apply in_or_app. right. simpl. auto. }
  split; [ exact E2 | ]. split; [ exact Eff2 | ].
  split; [ exact E3 | ]. split; [ reflexivity | ]. split; [ reflexivity | ].
  assert (P3 : saved_paths (effects (world m3))
               = saved_paths (effects (world m2)))
    by apply saved_paths_switched_off.
  assert (P1 : saved_paths (effects (world m1)) = saved_paths (effects w))
    by apply saved_paths_switched_on.
  rewrite P3, Eff2, saved_paths_app, P1. reflexivity.
Qed.

Lemma first_session_scenario_witness :
  exists m1 m2 m3,
    keyboardCallback (key_down "s") (start fresh_world) = Done tt m1
    /\ save_stream_ (self m1) = true
    /\ directories (world m1) = [ "0001" ]
    /\ In (DirectoryCreation "0001" true) (effects (world m1))
    /\ deliver [ CloudEvent (Grabbed 10); CloudEvent (Grabbed 11);
                 CloudEvent (Grabbed 12) ] m1 = Done tt m2
    /\ effects (world m2)
       = List.app (effects (world m1))
           [ SavePCD "0001/0001.pcd" (Grabbed 10);
             SavePCD "0001/0002.pcd" (Grabbed 11);
             SavePCD "0001/0003.pcd" (Grabbed 12) ]
    /\ keyboardCallback (key_down "s") m2 = Done tt m3
    /\ save_stream_ (self m3) = false
    /\ frame_id_ (self m3) = 0
    /\ saved_paths (effects (world m3))
       = [ "0001/0001.pcd"; "0001/0002.pcd"; "0001/0003.pcd" ].
Proof.
  apply (first_session_scenario fresh_world (Grabbed 10) (Grabbed 11)
           (Grabbed 12)).
  reflexivity.
Defined.

(** ** Sessions *)

(** A session that is left open: s, then frames. *)
Lemma open_session (clouds : list Cloud) (m : Machine) :
  save_stream_ (self m) = false ->
  frame_id_ (self m) = 0 ->
  wasStopped (self m) = false ->
  Z.of_nat (List.length clouds) < Int32.max_signed ->
  creatable (Fmt.pad4 (Int32.add (stream_id_ (self m)) 1)) (world m) = true ->
  exists m',
    deliver (press "s" :: map CloudEvent clouds) m = Done tt m'
    /\ save_stream_ (self m') = true
    /\ wasStopped (self m') = false
    /\ stream_id_ (self m') = Int32.add (stream_id_ (self m)) 1
    /\ directories (world m')
       = Fmt.pad4 (Int32.add (stream_id_ (self m)) 1) :: directories (world m)
    /\ read_only (world m') = read_only (world m)
    /\ saved_paths (effects (world m'))
       = List.app (saved_paths (effects (world m)))
           (map (stream_path (Int32.add (stream_id_ (self m)) 1))
              (consecutive 1 (List.length clouds))).
Proof.
  intros Hoff Hfid Hrun Hlen Hok.
  pose proof (record_switched_on m Hoff Hok) as E1.
  match type of E1 with _ = Done tt ?x => set (m1 := x) in * end.
  assert (On1 : save_stream_ (self m1) = true) by reflexivity.
  assert (Run1 : wasStopped (self m1) = false) by exact Hrun.
  assert (Fid1 : frame_id_ (self m1) = 1).
  { unfold m1. simpl. rewrite Hfid. reflexivity. }
  destruct (frames_recorded clouds m1 On1 Run1)
    as [m2 [E2 [Eff2 [_ [Self2 [_ [Dirs2 Ro2]]]]]]].
  { rewrite Fid1. vm_compute. split; discriminate. }
  { rewrite Fid1. unfold Int32.max_signed in *. lia. }
  exists m2.
  split. { simpl. unfold bind at 1. fold (key_down "s"). rewrite E1. exact E2. }
  split. { rewrite Self2. reflexivity. }
  split. { rewrite Self2. exact Hrun. }
  split. { rewrite Self2. reflexivity. }
  split. { rewrite Dirs2. reflexivity. }
  split. { rewrite Ro2. reflexivity. }
  rewrite Eff2, saved_paths_app, saved_paths_stream_saves, Fid1.
  f_equal. apply saved_paths_switched_on.
Qed.

(** A complete session: s, frames, s. *)
Lemma closed_session (clouds : list Cloud) (m : Machine) :
  save_stream_ (self m) = false ->
  frame_id_ (self m) = 0 ->
  wasStopped (self m) = false ->
  Z.of_nat (List.length clouds) < Int32.max_signed ->
  creatable (Fmt.pad4 (Int32.add (stream_id_ (self m)) 1)) (world m) = true ->
  exists m',
    deliver (press "s" :: map CloudEvent clouds ++ [ press "s" ])%list m
    = Done tt m'
    /\ save_stream_ (self m') = false
    /\ frame_id_ (self m') = 0
    /\ wasStopped (self m') = false
    /\ stream_id_ (self m') = Int32.add (stream_id_ (self m)) 1
    /\ directories (world m')
       = Fmt.pad4 (Int32.add (stream_id_ (self m)) 1) :: directories (world m)
    /\ read_only (world m') = read_only (world m)
    /\ saved_paths (effects (world m'))
       = List.app (saved_paths (effects (world m)))
           (map (stream_path (Int32.add (stream_id_ (self m)) 1))
              (consecutive 1 (List.length clouds))).
Proof.
  intros Hoff Hfid Hrun Hlen Hok.
  destruct (open_session clouds m Hoff Hfid Hrun Hlen Hok)
    as [m2 [E2 [On2 [Run2 [Sid2 [Dirs2 [Ro2 Saved2]]]]]]].
  pose proof (record_switched_off m2 On2) as E3.
  match type of E3 with _ = Done tt ?x => set (m3 := x) in * end.
  exists m3.
  split.
  { change (press "s" :: map CloudEvent clouds ++ [ press "s" ])%list
      with ((press "s" :: map CloudEvent clouds) ++ [ press "s" ])%list.
    rewrite deliver_app. unfold bind at 1. rewrite E2.
    simpl. unfold bind at 1. fold (key_down "s"). rewrite E3. reflexivity. }
  split; [ reflexivity | ]. split; [ reflexivity | ].
  split; [ exact Run2 | ]. split; [ exact Sid2 | ].
  split; [ exact Dirs2 | ]. split; [ exact Ro2 | ].
  rewrite <- Saved2. apply saved_paths_switched_off.
Qed.

Lemma creatable_after_other name other w :
  name <> other ->
  creatable name w = true ->
  forall sn effs,
    creatable name
      {| serial := sn; directories := other :: directories w;
         read_only := read_only w; effects := effs |} = true.
Proof.
  unfold creatable. simpl. intros N H sn effs.
  apply String.eqb_neq in N. rewrite N. exact H.
Qed.

(** Against C2 as stated: the first file of the first and of the second
    session have the frame index 1, not 0. *)
Lemma sessions_are_numbered_from_one :
  saved_after
    [ press "s"; CloudEvent (Grabbed 10); press "s";
      press "s"; CloudEvent (Grabbed 11) ] (start fresh_world)
  = Some [ stream_path 1 1; stream_path 2 1 ]
  /\ saved_after
       [ press "s"; CloudEvent (Grabbed 10); press "s";
         press "s"; CloudEvent (Grabbed 11) ] (start fresh_world)
     <> Some [ stream_path 1 0; stream_path 2 0 ]
  /\ stream_path 1 1 = "0001/0001.pcd"
  /\ stream_path 2 1 = "0002/0001.pcd"
  /\ stream_path 1 0 = "0001/0000.pcd".
Proof. vm_compute. repeat split; discriminate. Qed.

(** Two sessions, from a viewer at rest. *)
Lemma two_sessions (clouds1 clouds2 : list Cloud) (m : Machine) :
  save_stream_ (self m) = false ->
  frame_id_ (self m) = 0 ->
  wasStopped (self m) = false ->
  Z.of_nat (List.length clouds1) < Int32.max_signed ->
  Z.of_nat (List.length clouds2) < Int32.max_signed ->
  creatable (Fmt.pad4 (Int32.add (stream_id_ (self m)) 1)) (world m) = true ->
  creatable (Fmt.pad4 (Int32.add (Int32.add (stream_id_ (self m)) 1) 1))
    (world m) = true ->
  exists m',
    deliver
      ((press "s" :: map CloudEvent clouds1 ++ [ press "s" ])
       ++ press "s" :: map CloudEvent clouds2)%list m
    = Done tt m'
    /\ Fmt.pad4 (Int32.add (stream_id_ (self m)) 1)
       <> Fmt.pad4 (Int32.add (Int32.add (stream_id_ (self m)) 1) 1)
    /\ directories (world m')
       = Fmt.pad4 (Int32.add (Int32.add (stream_id_ (self m)) 1) 1)
         :: Fmt.pad4 (Int32.add (stream_id_ (self m)) 1)
         :: directories (world m)
    /\ saved_paths (effects (world m'))
       = List.app (saved_paths (effects (world m)))
           (List.app
              (map (stream_path (Int32.add (stream_id_ (self m)) 1))
                 (consecutive 1 (List.length clouds1)))
              (map (stream_path
                      (Int32.add (Int32.add (stream_id_ (self m)) 1) 1))
                 (consecutive 1 (List.length clouds2)))).
Proof.
  intros Hoff Hfid Hrun Hlen1 Hlen2 Hok1 Hok2.
  assert (N : Fmt.pad4 (Int32.add (Int32.add (stream_id_ (self m)) 1) 1)
              <> Fmt.pad4 (Int32.add (stream_id_ (self m)) 1)).
  { intros E. apply pad4_inj in E. revert E. apply add_one_neq.
    apply add_in_range. }
  destruct (closed_session clouds1 m Hoff Hfid Hrun Hlen1 Hok1)
    as [m3 [E3 [Off3 [Fid3 [Run3 [Sid3 [Dirs3 [Ro3 Saved3]]]]]]]].
  assert (Hok3 : creatable (Fmt.pad4 (Int32.add (stream_id_ (self m3)) 1))
                   (world m3) = true).
  { rewrite Sid3. destruct m3 as [v3 [sn3 dirs3 ro3 effs3]]. simpl in *.
    subst dirs3 ro3. apply creatable_after_other; assumption. }
  destruct (open_session clouds2 m3 Off3 Fid3 Run3 Hlen2 Hok3)
    as [m5 [E5 [_ [_ [_ [Dirs5 [_ Saved5]]]]]]].
  exists m5.
  split. { rewrite deliver_app. unfold bind at 1. rewrite E3. exact E5. }
  split. { intros E. apply N. now symmetry. }
  split. { rewrite Dirs5, Dirs3, Sid3. reflexivity. }
  rewrite Saved5, Saved3, Sid3, <- List.app_assoc. reflexivity.
Qed.

(** C2, amended. Whatever has happened since the viewer was constructed:
    when recording is off and the viewer not stopped, s, frames, s, s,
    frames creates two different session directories, named after the
    next two session numbers, and the files of each session are numbered
    1, 2, 3, ... from the start of that session. The two directories
    must be creatable, and a session shorter than 2^31 - 1 frames. *)
Theorem two_sessions_are_distinct_and_numbered_from_one
    (before : list Event) (w : World)
    (clouds1 clouds2 : list Cloud) (m : Machine) :
  deliver before (start w) = Done tt m ->
  save_stream_ (self m) = false ->
  wasStopped (self m) = false ->
  Z.of_nat (List.length clouds1) < Int32.max_signed ->
  Z.of_nat (List.length clouds2) < Int32.max_signed ->
  creatable (Fmt.pad4 (Int32.add (stream_id_ (self m)) 1)) (world m) = true ->
  creatable (Fmt.pad4 (Int32.add (Int32.add (stream_id_ (self m)) 1) 1))
    (world m) = true ->
  exists m',
    deliver
      ((press "s" :: map CloudEvent clouds1 ++ [ press "s" ])
       ++ press "s" :: map CloudEvent clouds2)%list m
    = Done tt m'
    /\ Fmt.pad4 (Int32.add (stream_id_ (self m)) 1)
       <> Fmt.pad4 (Int32.add (Int32.add (stream_id_ (self m)) 1) 1)
    /\ directories (world m')
       = Fmt.pad4 (Int32.add (Int32.add (stream_id_ (self m)) 1) 1)
         :: Fmt.pad4 (Int32.add (stream_id_ (self m)) 1)
         :: directories (world m)
    /\ saved_paths (effects (world m'))
       = List.app (saved_paths (effects (world m)))
           (List.app
              (map (stream_path (Int32.add (stream_id_ (self m)) 1))
                 (consecutive 1 (List.length clouds1)))
              (map (stream_path
                      (Int32.add (Int32.add (stream_id_ (self m)) 1) 1))
                 (consecutive 1 (List.length clouds2)))).
Proof.
  intros Hreach Hoff Hrun Hlen1 Hlen2 Hok1 Hok2.
  apply two_sessions; auto.
  now apply (counters_of_reachable_states before w m Hreach).
Qed.

Lemma two_sessions_are_distinct_and_numbered_from_one_witness :
  exists m',
    deliver
      ((press "s" :: map CloudEvent [ Grabbed 10; Grabbed 11 ] ++ [ press "s" ])
       ++ press "s" :: map CloudEvent [ Grabbed 12 ])%list (start fresh_world)
    = Done tt m'
    /\ "0001" <> "0002"
    /\ directories (world m') = [ "0002"; "0001" ]
    /\ saved_paths (effects (world m'))
       = [ "0001/0001.pcd"; "0001/0002.pcd"; "0002/0001.pcd" ].
Proof.
  apply (two_sessions_are_distinct_and_numbered_from_one
           [] fresh_world [ Grabbed 10; Grabbed 11 ] [ Grabbed 12 ]
           (start fresh_world));
    reflexivity.
Defined.

(** ** The temporal filtering mode *)

Lemma on_temporal_mode m :
  exists m',
    keyboardCallback (key_down "k") m = Done tt m'
    /\ temporal_filtering_ (self m') = next_mode (temporal_filtering_ (self m)).
Proof.
  unfold key_down. rewrite dispatch_k. unfold on_temporal. run_monad.
  destruct (temporal_filtering_ (self m)) eqn:E; simpl;
    eexists; (split; [ reflexivity | ]); simpl; auto.
Qed.

(** Against C3 as stated: three presses of k from the mode the viewer
    starts in (none) end in the mode average, not in the starting mode. *)
Lemma three_k_presses_leave_the_other_mode :
  mode_after [] (start fresh_world) = Some RealSense_None
  /\ mode_after [ press "k"; press "k"; press "k" ] (start fresh_world)
     = Some RealSense_Average
  /\ mode_after [ press "k"; press "k"; press "k" ] (start fresh_world)
     <> mode_after [] (start fresh_world).
Proof. vm_compute. repeat split; discriminate. Qed.

(** C3, amended. From every temporal filtering mode, each press of k
    returns, one press moves none to average and average to none (median
    has no case in the switch and stays), so two presses give the
    starting mode back, and three presses give the mode of one press. *)
Theorem k_twice_returns_to_the_starting_mode (m : Machine) :
  exists m1 m2 m3,
    keyboardCallback (key_down "k") m = Done tt m1
    /\ keyboardCallback (key_down "k") m1 = Done tt m2
    /\ keyboardCallback (key_down "k") m2 = Done tt m3
    /\ temporal_filtering_ (self m1) = next_mode (temporal_filtering_ (self m))
    /\ temporal_filtering_ (self m2) = temporal_filtering_ (self m)
    /\ temporal_filtering_ (self m3) = temporal_filtering_ (self m1).
Proof.
  destruct (on_temporal_mode m) as [m1 [E1 T1]].
  destruct (on_temporal_mode m1) as [m2 [E2 T2]].
  destruct (on_temporal_mode m2) as [m3 [E3 T3]].
  exists m1, m2, m3. repeat split; auto.
  - rewrite T2, T1. now destruct (temporal_filtering_ (self m)).
  - rewrite T3, T2, T1. now destruct (temporal_filtering_ (self m)).
Qed.

(** ** Manual save *)

(** C5. When no frame has been displayed yet ([last_cloud_] is null), a
    key-down event of p ends in the dereference of a null pointer: the
    branch reads [last_cloud_->header.stamp] without a test, nothing is
    saved and nothing is printed before. *)
Theorem manual_save_without_displayed_frame
    (event : KeyboardEvent) (m : Machine) :
  keyDown event = true ->
  getKeyCode event = "p"%char ->
  last_cloud_ (self m) = None ->
  keyboardCallback event m = NullDereference m.
Proof.
  destruct event as [down code]. simpl. intros -> -> H.
  rewrite dispatch_p. unfold on_save. run_monad. now rewrite H.
Qed.

Lemma manual_save_without_displayed_frame_witness :
  keyboardCallback (key_down "p") (start fresh_world)
  = NullDereference (start fresh_world).
Proof.
  apply (manual_save_without_displayed_frame (key_down "p") (start fresh_world));
    reflexivity.
Defined.

(** Frames that were delivered but not displayed do not help: as long as
    the loop of [run] has not taken a frame, p ends in the null
    dereference. *)
Lemma manual_save_before_first_display
    (evs : list Event) (w : World) (m : Machine) :
  forallb (fun ev => negb (is_LoopIteration ev)) evs = true ->
  deliver evs (start w) = Done tt m ->
  keyboardCallback (key_down "p") m = NullDereference m.
Proof.
  intros F E. unfold key_down. rewrite dispatch_p. unfold on_save. run_monad.
  now rewrite (nothing_displayed_without_iteration evs w m F E).
Qed.

Example manual_save_after_two_frames :
  deliver [ CloudEvent (Grabbed 1); CloudEvent (Grabbed 2); press "p" ]
    (start fresh_world)
  = NullDereference
      {| self := set_new_cloud_ (Some (Grabbed 2)) constructed;
         world := fresh_world |}.
Proof. reflexivity. Qed.

(** With a displayed frame the same branch saves it under a name made of
    the serial number and the time stamp. *)
Lemma manual_save_of_displayed_frame (m : Machine) (cloud : Cloud) :
  last_cloud_ (self m) = Some cloud ->
  exists m',
    keyboardCallback (key_down "p") m = Done tt m'
    /\ self m' = self m
    /\ saved_paths (effects (world m'))
       = List.app (saved_paths (effects (world m)))
           [ "RS_" ++ serial (world m) ++ "_"
             ++ Fmt.show_int (header_stamp cloud) ++ ".pcd" ].
Proof.
  intros H. unfold key_down. rewrite dispatch_p. unfold on_save. run_monad.
  rewrite H. simpl. eexists. split; [ reflexivity | ]. simpl. split; auto.
  assert (S : forall l1 l2, saved_paths (l1 ++ l2)
                            = (saved_paths l1 ++ saved_paths l2)%list).
  { induction l1 as [| e l1 IH]; intros l2; simpl; auto.
    destruct e; simpl; rewrite ?IH; auto. }
  rewrite <- !List.app_assoc. rewrite S. reflexivity.
Qed.

(** ** The confidence threshold *)

Lemma on_threshold_bounds event m :
  exists m',
    (on_threshold event ;; displaySettings) m = Done tt m'
    /\ 0 <= threshold_ (self m') <= 15.
Proof.
  unfold on_threshold. run_monad. eexists. split; [ reflexivity | ].
  simpl.
  destruct (Int32.add _ _ <? 0) eqn:E0.
  - simpl. lia.
  - destruct (Int32.add _ _ >? 15) eqn:E1; [ lia | ].
    apply Z.ltb_ge in E0. rewrite Z.gtb_ltb in E1. apply Z.ltb_ge in E1. lia.
Qed.

Lemma threshold_after_presses (keys : list ascii) (m : Machine) :
  Forall (fun c => c = "t"%char \/ c = "T"%char) keys ->
  0 <= threshold_ (self m) <= 15 ->
  exists m',
    deliver (map press keys) m = Done tt m'
    /\ 0 <= threshold_ (self m') <= 15.
Proof.
  intros F. revert m. induction F as [| c keys Hc F IH]; intros m Hm.
  - exists m. split; [ reflexivity | assumption ].
  - simpl. unfold bind at 1. unfold key_down. rewrite (dispatch_t c m Hc).
    destruct (on_threshold_bounds {| keyDown := true; getKeyCode := c |} m)
      as [m1 [E1 B1]].
    rewrite E1. apply IH. exact B1.
Qed.

(** C6. The viewer starts with the threshold 6. After every sequence of
    t and T key presses, and so after each press of such a sequence (every
    prefix [firstn n keys] of it), the callbacks have returned and the
    confidence threshold lies in [0, 15]. *)
Theorem threshold_stays_within_0_15 (keys : list ascii) (w : World) :
  Forall (fun c => c = "t"%char \/ c = "T"%char) keys ->
  forall n : nat,
    exists m',
      deliver (map press (firstn n keys)) (start w) = Done tt m'
      /\ 0 <= threshold_ (self m') <= 15.
Proof.
  intros F n. apply threshold_after_presses.
  - apply Forall_forall. intros c I.
    rewrite Forall_forall in F. apply F.
    rewrite <- (firstn_skipn n keys). apply in_or_app. now left.
  - simpl. lia.
Qed.

Lemma threshold_stays_within_0_15_witness :
  exists m',
    deliver (map press (firstn 3 [ "T"; "t"; "t"; "T" ]%char))
      (start fresh_world) = Done tt m'
    /\ 0 <= threshold_ (self m') <= 15.
Proof.
  apply (threshold_stays_within_0_15 [ "T"; "t"; "t"; "T" ]%char fresh_world).
  repeat first
    [ apply Forall_nil
    | apply Forall_cons; [ (left; reflexivity) || (right; reflexivity) | ] ].
Defined.

(** ** The sigmas of the bilateral filter *)

Lemma spatial_step_not_nan (s : F32.t) (up : bool) :
  s <> S754_nan ->
  F32.add s (F32.of_int (if up then 1 else -1)) <> S754_nan.
Proof.
  intros H. unfold F32.add.
  destruct up.
  - change (F32.of_int 1) with (S754_finite false 8388608 (-23)).
    now apply SFadd_not_nan.
  - change (F32.of_int (-1)) with (S754_finite true 8388608 (-23)).
    now apply SFadd_not_nan.
Qed.

Lemma range_step_not_nan (r : F32.t) (up : bool) :
  r <> S754_nan ->
  F32.round
    (F64.add (F64.of_float r)
       (if up then F64.lit_0_01 else F64.opp F64.lit_0_01)) <> S754_nan.
Proof.
  intros H. apply F32_round_not_nan. unfold F64.add.
  destruct up; apply SFadd_not_nan; now apply F64_of_float_not_nan.
Qed.

(** One press of a or A. *)
Lemma on_sigma_s_floor (event : KeyboardEvent) (m : Machine) :
  sigma_s_ (self m) <> S754_nan ->
  exists m',
    (on_sigma_s event ;; displaySettings) m = Done tt m'
    /\ F32.leb spatial_floor (sigma_s_ (self m')) = true
    /\ sigma_r_ (self m') = sigma_r_ (self m).
Proof.
  intros H. unfold on_sigma_s. run_monad.
  eexists. split; [ reflexivity | ]. simpl. split; [ | reflexivity ].
  pose proof (spatial_step_not_nan _ (key_is event "a") H) as N.
  destruct (F32.leb (F32.add _ _) (F32.of_int 1)) eqn:E.
  - vm_compute. reflexivity.
  - unfold F32.leb, spatial_floor in *. apply SFltb_leb.
    apply SFleb_false_ltb; [ exact N | vm_compute; discriminate | exact E ].
Qed.

(** One press of z or Z. *)
Lemma on_sigma_r_floor (event : KeyboardEvent) (m : Machine) :
  sigma_r_ (self m) <> S754_nan ->
  exists m',
    (on_sigma_r event ;; displaySettings) m = Done tt m'
    /\ at_or_above_range_floor (sigma_r_ (self m'))
    /\ sigma_s_ (self m') = sigma_s_ (self m).
Proof.
  intros H. unfold on_sigma_r. run_monad.
  eexists. split; [ reflexivity | ]. simpl. split; [ | reflexivity ].
  pose proof (range_step_not_nan _ (key_is event "z") H) as N.
  unfold at_or_above_range_floor.
  destruct (F64.leb (F64.of_float (F32.round _)) F64.lit_0_01) eqn:E.
  - left. reflexivity.
  - right. unfold F64.leb, F64.ltb in *.
    apply SFleb_false_ltb;
      [ now apply F64_of_float_not_nan | discriminate | exact E ].
Qed.

Lemma at_or_above_not_nan r : at_or_above_range_floor r -> r <> S754_nan.
Proof.
  intros [-> | H] E; [ discriminate | ].
  subst r. vm_compute in H. discriminate.
Qed.

Lemma sigmas_after_presses (keys : list ascii) (m : Machine) :
  Forall (fun c => In c [ "a"; "A"; "z"; "Z" ]%char) keys ->
  F32.leb spatial_floor (sigma_s_ (self m)) = true ->
  at_or_above_range_floor (sigma_r_ (self m)) ->
  exists m',
    deliver (map press keys) m = Done tt m'
    /\ F32.leb spatial_floor (sigma_s_ (self m')) = true
    /\ at_or_above_range_floor (sigma_r_ (self m')).
Proof.
  intros F. revert m. induction F as [| c keys Hc F IH]; intros m Hs Hr.
  - exists m. auto.
  - simpl. unfold bind at 1. unfold key_down.
    simpl in Hc. destruct Hc as [<- | [<- | [<- | [<- | []]]]].
    + rewrite (dispatch_a "a" m) by auto.
      destruct (on_sigma_s_floor {| keyDown := true; getKeyCode := "a" |} m)
        as [m1 [E1 [S1 R1]]]; [ eapply SFleb_not_nan; exact Hs | ].
      rewrite E1. apply IH; [ exact S1 | now rewrite R1 ].
    + rewrite (dispatch_a "A" m) by auto.
      destruct (on_sigma_s_floor {| keyDown := true; getKeyCode := "A" |} m)
        as [m1 [E1 [S1 R1]]]; [ eapply SFleb_not_nan; exact Hs | ].
      rewrite E1. apply IH; [ exact S1 | now rewrite R1 ].
    + rewrite (dispatch_z "z" m) by auto.
      destruct (on_sigma_r_floor {| keyDown := true; getKeyCode := "z" |} m)
        as [m1 [E1 [R1 S1]]]; [ now apply at_or_above_not_nan | ].
      rewrite E1. apply IH; [ now rewrite S1 | exact R1 ].
    + rewrite (dispatch_z "Z" m) by auto.
      destruct (on_sigma_r_floor {| keyDown := true; getKeyCode := "Z" |} m)
        as [m1 [E1 [R1 S1]]]; [ now apply at_or_above_not_nan | ].
      rewrite E1. apply IH; [ now rewrite S1 | exact R1 ].
Qed.

(** Against C7 as stated: four presses of Z from the default range sigma
    0.05 clamp it, and the clamped number compares less than [0.01]. *)
Lemma range_sigma_drops_below_0_01 :
  sigma_r_after (map press [ "Z"; "Z"; "Z"; "Z" ]%char) (start fresh_world)
  = Some (S754_finite false 10737418 (-30))
  /\ F64.ltb (F64.of_float (S754_finite false 10737418 (-30))) F64.lit_0_01
     = true
  /\ F64.leb F64.lit_0_01 (F64.of_float (S754_finite false 10737418 (-30)))
     = false.
Proof. vm_compute. auto. Qed.

(** C7, amended. After every sequence of presses of a, A, z and Z (so
    after every sequence of a and A only, and of z and Z only) the
    callbacks have returned, the spatial sigma is not below 1, and the
    range sigma is either greater than 0.01 or the number the clamp
    stores, which is 0.01 rounded to a [float] and lies just below
    0.01. *)
Theorem sigmas_stay_at_or_above_their_floors
    (keys : list ascii) (w : World) :
  Forall (fun c => In c [ "a"; "A"; "z"; "Z" ]%char) keys ->
  exists m',
    deliver (map press keys) (start w) = Done tt m'
    /\ F32.leb (F32.of_int 1) (sigma_s_ (self m')) = true
    /\ (sigma_r_ (self m') = F32.round F64.lit_0_01
        \/ F64.ltb F64.lit_0_01 (F64.of_float (sigma_r_ (self m'))) = true)
    /\ F64.ltb (F64.of_float (F32.round F64.lit_0_01)) F64.lit_0_01 = true.
Proof.
  intros F.
  destruct (sigmas_after_presses keys (start w) F) as [m' [E [S R]]].
  - vm_compute. reflexivity.
  - right. vm_compute. reflexivity.
  - exists m'. split; [ exact E | ]. split; [ exact S | ].
    split; [ exact R | ]. apply range_floor_below_0_01.
Qed.

Lemma sigmas_stay_at_or_above_their_floors_witness :
  exists m',
    deliver (map press [ "A"; "Z"; "a"; "z"; "Z"; "Z" ]%char)
      (start fresh_world) = Done tt m'
    /\ F32.leb (F32.of_int 1) (sigma_s_ (self m')) = true
    /\ (sigma_r_ (self m') = F32.round F64.lit_0_01
        \/ F64.ltb F64.lit_0_01 (F64.of_float (sigma_r_ (self m'))) = true)
    /\ F64.ltb (F64.of_float (F32.round F64.lit_0_01)) F64.lit_0_01 = true.
Proof.
  apply (sigmas_stay_at_or_above_their_floors
           [ "A"; "Z"; "a"; "z"; "Z"; "Z" ]%char fresh_world).
  repeat first [ apply Forall_nil | apply Forall_cons; [ simpl; tauto | ] ].
Defined.

(** ** Failure to create the session directory *)

(** C8. When s is pressed while recording is off and the directory of the
    new session cannot be created, the process is ended by [exit (-1)]:
    the directory was tried once, the error went to standard error, and
    nothing follows, neither the refresh of the overlay nor any later
    event. *)
Theorem directory_creation_failure_is_fatal
    (event : KeyboardEvent) (rest : list Event) (m : Machine) :
  keyDown event = true ->
  getKeyCode event = "s"%char ->
  save_stream_ (self m) = false ->
  creatable (Fmt.pad4 (Int32.add (stream_id_ (self m)) 1)) (world m) = false ->
  exists m',
    keyboardCallback event m = Exited (-1) m'
    /\ deliver (KeyEvent event :: rest) m = Exited (-1) m'
    /\ effects (world m')
       = List.app (effects (world m))
           [ PrintInfo "Record stream: ";
             PrintValue ("ON" ++ nl);
             DirectoryCreation
               (Fmt.pad4 (Int32.add (stream_id_ (self m)) 1)) false;
             Cerr ("Error creating save directory." ++ nl) ]
    /\ directories (world m') = directories (world m).
Proof.
  destruct event as [down code]. simpl. intros -> -> Hoff Hfail.
  unfold bind. rewrite dispatch_s.
  unfold on_record, createStreamDirectory, CreateDirectory.
  run_monad. rewrite Hoff. simpl.
  destruct m as [v [sn dirs ro effs]]. simpl in *.
  unfold creatable in *. simpl in *. rewrite Hfail. simpl.
  eexists. split; [ reflexivity | ]. split; [ reflexivity | ]. simpl.
  rewrite <- !List.app_assoc. simpl. auto.
Qed.

Lemma directory_creation_failure_is_fatal_witness :
  exists m',
    keyboardCallback (key_down "s") (start (world_of host_with_0001 "231400041-03" []))
    = Exited (-1) m'
    /\ deliver [ press "s"; CloudEvent (Grabbed 1); press "s" ]
         (start (world_of host_with_0001 "231400041-03" []))
       = Exited (-1) m'
    /\ effects (world m')
       = [ PrintInfo "Record stream: ";
           PrintValue ("ON" ++ nl);
           DirectoryCreation "0001" false;
           Cerr ("Error creating save directory." ++ nl) ]
    /\ directories (world m') = [ "0001" ].
Proof.
  apply (directory_creation_failure_is_fatal (key_down "s")
           [ CloudEvent (Grabbed 1); press "s" ]
           (start (world_of host_with_0001 "231400041-03" [])));
    reflexivity.
Defined.

(** ** Exit codes *)

Ltac settle :=
  repeat split; intros;
  repeat match goal with
    | H : _ /\ _ |- _ => destruct H
    | H : _ \/ _ |- _ => destruct H
    | H : exists _, _ |- _ => destruct H
    end;
  try discriminate; try congruence; try (simpl; tauto); eauto 8.

(** Without a device, the list switch prints none and the code is 0;
    the help switch does not look at the host. *)
Example list_without_device :
  main [ "real_sense_viewer"; "--list" ] host_without_device []
  = ([ banner; Cout "Connected devices: "; Cout ("none" ++ nl) ], Returned 0).
Proof. reflexivity. Qed.

Example help_ignores_the_host (host : Host) (events : list Event) :
  main [ "real_sense_viewer"; "-h" ] host events
  = (banner :: printHelp [ "real_sense_viewer"; "-h" ], Returned 0)
  /\ nth_error (printHelp [ "real_sense_viewer"; "-h" ]) 7
     = Some (Cout ("Usage: real_sense_viewer [Options] device_id" ++ nl))
  /\ List.length (printHelp [ "real_sense_viewer"; "-h" ]) = 36%nat.
Proof. repeat split. Qed.

Example no_device_exit_code :
  snd (main [ "real_sense_viewer"; "#2" ] host_without_device []) = Returned 1.
Proof. reflexivity. Qed.

Example window_closed_exit_code :
  snd (main [ "real_sense_viewer" ] host_with_0001
         [ CloudEvent (Grabbed 1); LoopIteration; WindowClosed ])
  = Returned 0.
Proof. reflexivity. Qed.

(** Against C9 as stated: the device is opened, s is pressed in a working
    directory that holds 0001 already, and the process ends with the code
    -1: neither 1 nor 0. *)
Lemma exit_code_with_an_opened_device :
  grabber host_with_0001 (device_id [ "real_sense_viewer" ])
  = inr "231400041-03"
  /\ snd (main [ "real_sense_viewer" ] host_with_0001 [ press "s" ])
     = ExitCalled (-1)
  /\ exit_code (snd (main [ "real_sense_viewer" ] host_with_0001 [ press "s" ]))
     <> Some 0
  /\ exit_code (snd (main [ "real_sense_viewer" ] host_with_0001 [ press "s" ]))
     <> Some 1.
Proof. vm_compute. repeat split; discriminate. Qed.

(** C9, amended. The exit code of the process is
    - 1 exactly when no help or list switch is given and the requested
      device cannot be opened;
    - 0 exactly on the help and list paths, and when the device was
      opened and the loop of [run] ended with the closing of the window;
    - -1 exactly when the device was opened and the viewer ended the
      process itself, which it does when a session directory cannot be
      created;
    and there is no other code (none at all while [run] goes on, or after
    the null dereference of C5). *)
Theorem exit_code_of_main
    (argv : list string) (host : Host) (events : list Event) :
  (exit_code (snd (main argv host events)) = Some 1
   <-> help_or_list argv = false
       /\ exists what, grabber host (device_id argv) = inl what)
  /\ (exit_code (snd (main argv host events)) = Some 0
      <-> help_or_list argv = true
          \/ exists device_serial m,
               grabber host (device_id argv) = inr device_serial
               /\ run events
                    (start (world_of host device_serial (startup_prints argv)))
                  = Done true m)
  /\ (exit_code (snd (main argv host events)) = Some (-1)
      <-> help_or_list argv = false
          /\ exists device_serial code m,
               grabber host (device_id argv) = inr device_serial
               /\ run events
                    (start (world_of host device_serial (startup_prints argv)))
                  = Exited code m)
  /\ In (exit_code (snd (main argv host events)))
       [ None; Some 0; Some 1; Some (-1) ].
Proof.
  unfold main, help_or_list.
  destruct (find_switch argv "--help"), (find_switch argv "-h"),
    (find_switch argv "--list"), (find_switch argv "-l"); simpl;
    try solve [ settle ].
  destruct (grabber host (device_id argv)) as [what | device_serial] eqn:G.
  - simpl. settle.
  - destruct (run events _) as [[|] m | code m | m] eqn:R; simpl;
      try solve [ settle ].
    pose proof (exits_run events _ _ _ R) as ->. settle.
Qed.

(** ** Keys without a command *)

Lemma is_command_false event :
  is_command event = false
  <-> keyDown event = false \/ ~ In (getKeyCode event) command_keys.
Proof.
  unfold is_command. split.
  - intros H. apply andb_false_iff in H as [H | H]; [ now left | right ].
    intros I. assert (E : existsb (Ascii.eqb (getKeyCode event)) command_keys = true).
    { apply existsb_exists. exists (getKeyCode event). split; auto.
      apply Ascii.eqb_refl. }
    congruence.
  - intros [H | H]; [ now rewrite H | ].
    apply andb_false_iff. right.
    destruct (existsb (Ascii.eqb (getKeyCode event)) command_keys) eqn:E; auto.
    apply existsb_exists in E as [c [I E]].
    apply Ascii.eqb_eq in E. subst c. contradiction.
Qed.

(** C10. A key-up event, and a key-down event of a key that is none of
    w, W, t, T, k, b, a, A, z, Z, p, s, changes no field of the viewer
    (window size, threshold, temporal mode, bilateral flag and sigmas,
    recording flag, session and frame counters) and nothing of the
    working directory; the one thing a key-down event does is to draw the
    overlay again from the unchanged settings. *)
Theorem other_keys_have_no_effect (event : KeyboardEvent) (m : Machine) :
  is_command event = false ->
  keyboardCallback event m
  = Done tt
      {| self := self m;
         world := {| serial := serial (world m);
                     directories := directories (world m);
                     read_only := read_only (world m);
                     effects := effects (world m)
                       ++ (if keyDown event then [overlay (self m)] else [])
                  |} |}.
Proof.
  intros H. rewrite (dispatch_other _ _ H).
  destruct m as [v [sn dirs ro effs]].
  destruct (keyDown event); run_monad; [ reflexivity | ].
  now rewrite app_nil_r.
Qed.

(** The capital letters of k, b, p and s are no commands, and releasing
    a command key does nothing. *)
Example capital_S_is_no_command :
  recording_after [ press "S"; press "K"; press "B"; press "P" ]
    (start fresh_world) = Some false
  /\ mode_after [ press "S"; press "K"; press "B"; press "P" ]
       (start fresh_world) = Some RealSense_None.
Proof. vm_compute. auto. Qed.

Example releasing_s_does_nothing :
  deliver [ release "s" ] (start fresh_world) = Done tt (start fresh_world).
Proof. reflexivity. Qed.

Lemma other_keys_have_no_effect_witness :
  keyboardCallback (key_down "x") (start fresh_world)
  = Done tt
      {| self := constructed;
         world := {| serial := serial fresh_world;
                     directories := [];
                     read_only := false;
                     effects := [overlay constructed] |} |}.
Proof.
  apply (other_keys_have_no_effect (key_down "x") (start fresh_world)).
  reflexivity.
Defined.

(* ===================================================================== *)
(** * Further properties *)

(** ** Every event, case by case *)

Lemma key_event_cases (event : KeyboardEvent) :
  keyDown event = false
  \/ (keyDown event = true /\ is_command event = false)
  \/ exists c, event = key_down c /\ In c command_keys.
Proof.
  destruct event as [[|] c]; [ | now left ]. right.
  destruct (is_command {| keyDown := true; getKeyCode := c |}) eqn:C.
  - right. exists c. split; [ reflexivity | ].
    unfold is_command in C. cbn [keyDown getKeyCode andb] in C.
    apply existsb_exists in C as [c' [I E]].
    apply Ascii.eqb_eq in E. now subst c'.
  - left. split; reflexivity.
Qed.

Lemma final_deliver_cons ev evs m :
  final (deliver (ev :: evs) m)
  = match handle ev m with
    | Done _ m1 => final (deliver evs m1)
    | Exited _ m1 => m1
    | NullDereference m1 => m1
    end.
Proof. simpl. unfold bind. now destruct (handle ev m). Qed.

(** A property of the machine that every event keeps, however its
    callback ends, holds after every sequence of events. *)
Lemma deliver_final_inv (J : Machine -> Prop) :
  (forall ev m, J m -> J (final (handle ev m))) ->
  forall evs m, J m -> J (final (deliver evs m)).
Proof.
  intros Step evs. induction evs as [| ev evs IH]; intros m Hm.
  - exact Hm.
  - rewrite final_deliver_cons. specialize (Step ev m Hm).
    destruct (handle ev m) as [[] m1 | code m1 | m1]; simpl in Step; auto.
Qed.

(** The same for events chosen by a test, when their callbacks return. *)
Lemma deliver_returns_inv (ok : Event -> bool) (J : Machine -> Prop) :
  (forall ev m, ok ev = true -> J m ->
     exists m', handle ev m = Done tt m' /\ J m') ->
  forall evs m, forallb ok evs = true -> J m ->
    exists m', deliver evs m = Done tt m' /\ J m'.
Proof.
  intros Step evs. induction evs as [| ev evs IH]; intros m F Hm.
  - exists m. split; [ reflexivity | exact Hm ].
  - simpl in F. apply andb_prop in F as [F1 F2].
    destruct (Step ev m F1 Hm) as [m1 [E1 J1]].
    simpl. unfold bind. rewrite E1. now apply IH.
Qed.

(** [key_cases event]: the callback of a keyboard event is one of the
    branches, with the key known. *)
Ltac key_cases event :=
  let c := fresh "c" in
  let H := fresh "Hup" in
  let Hc := fresh "Hother" in
  let I := fresh "I" in
  destruct (key_event_cases event) as [H | [[H Hc] | [c [-> I]]]];
  [ rewrite (dispatch_up _ _ H)
  | rewrite (dispatch_other _ _ Hc), H
  | simpl in I;
    repeat (destruct I as [<- | I]); try contradiction; unfold key_down;
    first [ rewrite dispatch_k | rewrite dispatch_b | rewrite dispatch_p
          | rewrite dispatch_s
          | rewrite dispatch_w by auto | rewrite dispatch_t by auto
          | rewrite dispatch_a by auto | rewrite dispatch_z by auto ] ].

(** [branches]: the state the branch reads is split into its cases. *)
Ltac branches :=
  unfold on_window, on_threshold, on_temporal, on_bilateral, on_sigma_s,
    on_sigma_r, on_save, on_record, createStreamDirectory, CreateDirectory,
    cloudCallback, savePointCloud, show_new_cloud;
  run_monad;
  repeat match goal with
    | |- context [ match temporal_filtering_ ?v with _ => _ end ] =>
        destruct (temporal_filtering_ v) eqn:?; simpl
    | |- context [ match last_cloud_ ?v with _ => _ end ] =>
        destruct (last_cloud_ v) eqn:?; simpl
    | |- context [ match new_cloud_ ?v with _ => _ end ] =>
        destruct (new_cloud_ v) eqn:?; simpl
    | |- context [ if save_stream_ ?v then _ else _ ] =>
        destruct (save_stream_ v) eqn:?; simpl
    | |- context [ if negb (save_stream_ ?v) then _ else _ ] =>
        destruct (save_stream_ v) eqn:?; simpl
    | |- context [ if wasStopped ?v then _ else _ ] =>
        destruct (wasStopped v) eqn:?; simpl
    | |- context [ if negb (wasStopped ?v) then _ else _ ] =>
        destruct (wasStopped v) eqn:?; simpl
    | |- context [ if has_cloud ?v then _ else _ ] =>
        destruct (has_cloud v) eqn:?; simpl
    | |- context [ if negb (has_cloud ?v) then _ else _ ] =>
        destruct (has_cloud v) eqn:?; simpl
    | |- context [ if creatable ?n ?w then _ else _ ] =>
        destruct (creatable n w) eqn:?; simpl
    end.

(** [event_cases ev]: all the ways the callback of an event can go. *)
Ltac event_cases ev :=
  let event := fresh "event" in
  let cloud := fresh "cloud" in
  destruct ev as [event | cloud | | ]; simpl handle;
  [ key_cases event | | | ]; branches.

(** ** The settings, and what the grabber is given *)

Ltac clamps :=
  repeat match goal with
    | |- context [ if ?a <? ?b then _ else _ ] =>
        destruct (Z.ltb_spec a b)
    | |- context [ if ?a >? ?b then _ else _ ] =>
        rewrite (Z.gtb_ltb a b); destruct (Z.ltb_spec b a)
    end.

(** [as_suffix]: the effects of the goal are those before and a list
    that is left to describe. *)
Ltac as_suffix :=
  first
    [ exists []; split; [ symmetry; apply List.app_nil_r | ]
    | rewrite <- ?List.app_assoc; simpl; eexists; split; [ reflexivity | ] ].

Lemma valid_step (ev : Event) (m : Machine) :
  settings_valid (self m) ->
  settings_valid (self (final (handle ev m)))
  /\ exists l,
       effects (world (final (handle ev m))) = (effects (world m) ++ l)%list
       /\ Forall valid_push l.
Proof.
  unfold settings_valid. intros [Hw [Ht Hm]].
  event_cases ev;
    (split;
     [ simpl; repeat split; try assumption; try discriminate;
       try congruence; clamps; lia
     | as_suffix; unfold overlay;
       repeat (apply Forall_cons; [ simpl; try exact I | ]);
       try apply Forall_nil;
       repeat split; try assumption; try discriminate; try congruence;
       clamps; lia ]).
Qed.

Lemma valid_after_events (evs : list Event) (w : World) :
  settings_valid (self (final (deliver evs (start w))))
  /\ exists l,
       effects (world (final (deliver evs (start w)))) = (effects w ++ l)%list
       /\ Forall valid_push l.
Proof.
  apply (deliver_final_inv
           (fun m => settings_valid (self m)
                     /\ exists l, effects (world m) = (effects w ++ l)%list
                                  /\ Forall valid_push l)).
  - intros ev m [Hs [l [El Fl]]].
    destruct (valid_step ev m Hs) as [Hs' [l' [El' Fl']]].
    split; [ exact Hs' | ].
    exists (l ++ l')%list. split.
    + rewrite El', El. now rewrite List.app_assoc.
    + apply Forall_app. now split.
  - split.
    + unfold settings_valid. simpl. repeat split; try lia. discriminate.
    + exists []. split; [ symmetry; apply List.app_nil_r | constructor ].
Qed.

(** X1. Whatever events the constructed viewer is given, and however
    their handling ends (return, exit or null dereference), its window
    size is at least 1, its confidence threshold lies in [0, 15], and its
    temporal filtering mode is not median. *)
Theorem settings_stay_valid (evs : list Event) (w : World) :
  1 <= window_ (self (final (deliver evs (start w))))
  /\ 0 <= threshold_ (self (final (deliver evs (start w)))) <= 15
  /\ temporal_filtering_ (self (final (deliver evs (start w))))
     <> RealSense_Median.
Proof. apply (valid_after_events evs w). Qed.

(** X2. Whatever events the constructed viewer is given, what it has
    handed to the grabber is a confidence threshold in [0, 15]
    ([setConfidenceThreshold]) and a window of at least 1 with a mode
    other than median ([enableTemporalFiltering]). *)
Theorem grabber_is_given_valid_settings (evs : list Event) (w : World) :
  exists l,
    effects (world (final (deliver evs (start w)))) = (effects w ++ l)%list
    /\ Forall valid_push l.
Proof. apply (valid_after_events evs w). Qed.

(** ** The hand-over of frames to the display *)

Lemma displayed_app l1 l2 :
  displayed (l1 ++ l2)%list = (displayed l1 ++ displayed l2)%list.
Proof.
  induction l1 as [| e l1 IH]; simpl; auto.
  destruct e; simpl; rewrite ?IH; auto.
Qed.

Lemma added_app l1 l2 : added (l1 ++ l2)%list = (added l1 + added l2)%nat.
Proof.
  induction l1 as [| e l1 IH]; simpl; auto.
  destruct e; simpl; rewrite ?IH; auto.
Qed.

Lemma camera_resets_app l1 l2 :
  camera_resets (l1 ++ l2)%list = (camera_resets l1 + camera_resets l2)%nat.
Proof.
  induction l1 as [| e l1 IH]; simpl; auto.
  destruct e; simpl; rewrite ?IH; auto.
Qed.

(** A delivered cloud becomes the pending one, whatever was pending. *)
Lemma cloud_stored (cloud : Cloud) (m : Machine) :
  wasStopped (self m) = false ->
  exists m',
    cloudCallback cloud m = Done tt m'
    /\ self m'
       = set_frame_id_ (frame_id_ (self m'))
           (set_new_cloud_ (Some (incoming (self m) cloud)) (self m))
    /\ displayed (effects (world m')) = displayed (effects (world m)).
Proof.
  intros Hrun. unfold cloudCallback, savePointCloud. run_monad.
  rewrite Hrun. simpl.
  destruct (save_stream_ (self m)); simpl;
    (eexists; split; [ reflexivity | ]); simpl; split;
    first
      [ reflexivity
      | now destruct m as [[] ?]
      | rewrite displayed_app; simpl; apply List.app_nil_r ].
Qed.

Lemma clouds_stored (clouds : list Cloud) (m : Machine) :
  wasStopped (self m) = false ->
  exists m',
    deliver (map CloudEvent clouds) m = Done tt m'
    /\ self m'
       = set_frame_id_ (frame_id_ (self m'))
           (set_new_cloud_ (new_cloud_ (self m')) (self m))
    /\ displayed (effects (world m')) = displayed (effects (world m)).
Proof.
  revert m. induction clouds as [| c clouds IH]; intros m Hrun.
  - exists m. repeat split; auto. now destruct m as [[] ?].
  - destruct (cloud_stored c m Hrun) as [m1 [E1 [S1 D1]]].
    destruct (IH m1) as [m2 [E2 [S2 D2]]].
    { rewrite S1. exact Hrun. }
    exists m2. simpl. unfold bind. rewrite E1.
    split; [ exact E2 | ]. split; [ | congruence ].
    set (f2 := frame_id_ (self m2)) in *.
    set (n2 := new_cloud_ (self m2)) in *.
    rewrite S2, S1. now destruct m as [[] ?].
Qed.

(** One iteration of the loop with a pending cloud. *)
Lemma pending_cloud_shown (cloud : Cloud) (m : Machine) :
  new_cloud_ (self m) = Some cloud ->
  exists m',
    show_new_cloud m = Done tt m'
    /\ displayed (effects (world m'))
       = (displayed (effects (world m)) ++ [ cloud ])%list
    /\ last_cloud_ (self m') = Some cloud
    /\ new_cloud_ (self m') = None.
Proof.
  intros Hnew. unfold show_new_cloud. run_monad. rewrite Hnew. simpl.
  destruct (has_cloud (self m)); simpl;
    (eexists; split; [ reflexivity | ]); simpl; repeat split;
    rewrite <- ?List.app_assoc; rewrite displayed_app; unfold overlay;
    reflexivity.
Qed.

(** X3. Frames are not queued. When the viewer has not been stopped and
    clouds are delivered one after the other before the loop of [run]
    comes round, the loop shows the latest of them (filtered, if the
    bilateral filter is on) and no other, keeps it as the last displayed
    cloud, and leaves nothing pending. *)
Theorem latest_frame_is_displayed
    (earlier : list Cloud) (latest : Cloud) (m : Machine) :
  wasStopped (self m) = false ->
  exists m',
    deliver (map CloudEvent (earlier ++ [ latest ]) ++ [ LoopIteration ])%list m
    = Done tt m'
    /\ displayed (effects (world m'))
       = (displayed (effects (world m)) ++ [ incoming (self m) latest ])%list
    /\ last_cloud_ (self m') = Some (incoming (self m) latest)
    /\ new_cloud_ (self m') = None.
Proof.
  intros Hrun.
  destruct (clouds_stored earlier m Hrun) as [m1 [E1 [S1 D1]]].
  assert (Hrun1 : wasStopped (self m1) = false) by (rewrite S1; exact Hrun).
  destruct (cloud_stored latest m1 Hrun1) as [m2 [E2 [S2 D2]]].
  assert (I2 : incoming (self m1) latest = incoming (self m) latest).
  { rewrite S1. reflexivity. }
  destruct (pending_cloud_shown (incoming (self m) latest) m2)
    as [m3 [E3 [D3 [L3 N3]]]].
  { rewrite S2, I2. reflexivity. }
  exists m3. split.
  - rewrite map_app, <- List.app_assoc, deliver_app. unfold bind at 1.
    rewrite E1. simpl. unfold bind. rewrite E2, E3. reflexivity.
  - split; [ | auto ]. rewrite D3, D2, D1. reflexivity.
Qed.

Lemma latest_frame_is_displayed_witness :
  exists m',
    deliver
      (map CloudEvent ([ Grabbed 1; Grabbed 2 ] ++ [ Grabbed 3 ])
       ++ [ LoopIteration ])%list (start fresh_world)
    = Done tt m'
    /\ displayed (effects (world m')) = [ Grabbed 3 ]
    /\ last_cloud_ (self m') = Some (Grabbed 3)
    /\ new_cloud_ (self m') = None.
Proof.
  apply (latest_frame_is_displayed [ Grabbed 1; Grabbed 2 ] (Grabbed 3)
           (start fresh_world)).
  reflexivity.
Defined.

(** X4. A frame is shown once. After an iteration of the loop of [run]
    nothing is pending, and a further iteration with no new frame in
    between leaves the viewer and the display as they are. *)
Theorem frame_is_displayed_once (m : Machine) :
  exists m',
    deliver [ LoopIteration ] m = Done tt m'
    /\ new_cloud_ (self m') = None
    /\ deliver [ LoopIteration ] m' = Done tt m'
    /\ deliver [ LoopIteration; LoopIteration ] m = Done tt m'.
Proof.
  simpl. unfold bind, show_new_cloud. run_monad.
  destruct (new_cloud_ (self m)) eqn:N; simpl.
  - destruct (has_cloud (self m)); simpl;
      (eexists; split; [ reflexivity | ]); simpl; auto.
  - exists m. rewrite N. auto.
Qed.

Arguments clouds_held : simpl never.

(** One event and the calls of [addPointCloud] and [resetCamera]. *)
Lemma added_step (n r : nat) (ev : Event) (m : Machine) :
  added (effects (world m)) = (n + clouds_held (self m))%nat ->
  camera_resets (effects (world m)) = (r + clouds_held (self m))%nat ->
  added (effects (world (final (handle ev m))))
  = (n + clouds_held (self (final (handle ev m))))%nat
  /\ camera_resets (effects (world (final (handle ev m))))
     = (r + clouds_held (self (final (handle ev m))))%nat.
Proof.
  intros Ha Hr.
  event_cases ev;
    rewrite ?added_app, ?camera_resets_app; unfold overlay;
    unfold clouds_held in *; simpl;
    repeat match goal with
      | H : has_cloud _ = _ |- _ => rewrite H in *
      end;
    rewrite ?Ha, ?Hr; split; lia.
Qed.

(** X5. The cloud is added to the visualizer, and the camera reset, once:
    whatever events the constructed viewer is given, [addPointCloud] and
    [resetCamera] have been called once if the visualizer holds a cloud
    and not at all if it holds none; every other display is an update. *)
Theorem cloud_is_added_once (evs : list Event) (w : World) :
  added (effects (world (final (deliver evs (start w)))))
  = (added (effects w)
     + clouds_held (self (final (deliver evs (start w)))))%nat
  /\ camera_resets (effects (world (final (deliver evs (start w)))))
     = (camera_resets (effects w)
        + clouds_held (self (final (deliver evs (start w)))))%nat
  /\ (clouds_held (self (final (deliver evs (start w)))) <= 1)%nat.
Proof.
  split; [ | split ].
  - apply (deliver_final_inv
             (fun m =>
                added (effects (world m))
                = (added (effects w) + clouds_held (self m))%nat
                /\ camera_resets (effects (world m))
                   = (camera_resets (effects w) + clouds_held (self m))%nat)).
    + intros ev m [Ha Hr]. now apply added_step.
    + unfold clouds_held. simpl. split; lia.
  - apply (deliver_final_inv
             (fun m =>
                added (effects (world m))
                = (added (effects w) + clouds_held (self m))%nat
                /\ camera_resets (effects (world m))
                   = (camera_resets (effects w) + clouds_held (self m))%nat)).
    + intros ev m [Ha Hr]. now apply added_step.
    + unfold clouds_held. simpl. split; lia.
  - unfold clouds_held. destruct (has_cloud _); lia.
Qed.

(** ** Manual save of a displayed frame *)

Lemma printf0_no_percent (s : string) :
  Fmt.no_percent s = true -> Fmt.printf0 s = Some s.
Proof.
  induction s as [| c s IH]; simpl; [ reflexivity | ].
  intros H. apply andb_prop in H as [H1 H2].
  destruct (Ascii.eqb c "%"); [ discriminate | ].
  now rewrite (IH H2).
Qed.

Lemma no_percent_app (a b : string) :
  Fmt.no_percent (a ++ b) = Fmt.no_percent a && Fmt.no_percent b.
Proof.
  induction a as [| c a IH]; simpl; [ reflexivity | ].
  now rewrite IH, andb_assoc.
Qed.

Lemma no_percent_show_int (z : Z) : Fmt.no_percent (Fmt.show_int z) = true.
Proof.
  unfold Fmt.show_int.
  assert (U : forall d, Fmt.no_percent
                          (DecimalString.NilEmpty.string_of_uint d) = true).
  { induction d; simpl; auto. }
  destruct (Z.to_int z); simpl; auto.
Qed.

Lemma no_percent_manual_path (device_serial : string) (stamp : Z) :
  Fmt.no_percent device_serial = true ->
  Fmt.no_percent (manual_path device_serial stamp) = true.
Proof.
  intros H. unfold manual_path.
  now rewrite !no_percent_app, H, no_percent_show_int.
Qed.

(** The file name is the format of [print_value]: a percent sign in the
    serial number is taken as the start of a conversion. *)
Example percent_in_the_serial_number :
  Fmt.printf0 (manual_path "AB%%CD" 5) = Some "RS_AB%CD_5.pcd"
  /\ Fmt.printf0 (manual_path "AB%dCD" 5) = None
  /\ Fmt.printf0 (manual_path "231400041-03" 5) = Some "RS_231400041-03_5.pcd".
Proof. repeat split. Qed.

(** X6. When a frame has been displayed, p saves that frame (not a newer
    one that is pending) in a file named after the serial number of the
    device and the time stamp of the frame, hands the name to
    [print_value] as its format, draws the overlay again, and changes no
    setting. When the serial number has no percent sign, what
    [print_value] writes for that format is the name. *)
Theorem manual_save_writes_the_displayed_frame
    (m : Machine) (cloud : Cloud) :
  last_cloud_ (self m) = Some cloud ->
  keyboardCallback (key_down "p") m
  = Done tt
      {| self := self m;
         world :=
           {| serial := serial (world m);
              directories := directories (world m);
              read_only := read_only (world m);
              effects :=
                List.app (effects (world m))
                  [ SavePCD
                      (manual_path (serial (world m)) (header_stamp cloud))
                      cloud;
                    PrintInfo "Saved point cloud: ";
                    PrintValueFormat
                      (manual_path (serial (world m)) (header_stamp cloud));
                    PrintInfo nl;
                    overlay (self m) ] |} |}
  /\ (Fmt.no_percent (serial (world m)) = true ->
      Fmt.printf0 (manual_path (serial (world m)) (header_stamp cloud))
      = Some (manual_path (serial (world m)) (header_stamp cloud))).
Proof.
  intros H. split.
  - unfold key_down. rewrite dispatch_p. unfold on_save. run_monad.
    rewrite H. simpl. rewrite <- !List.app_assoc. reflexivity.
  - intros P. apply printf0_no_percent. now apply no_percent_manual_path.
Qed.

Lemma manual_save_writes_the_displayed_frame_witness :
  keyboardCallback (key_down "p") after_a_display
  = Done tt
      {| self := self after_a_display;
         world :=
           {| serial := "231400041-03";
              directories := [];
              read_only := false;
              effects :=
                [ SavePCD "RS_231400041-03_5.pcd" (Grabbed 5);
                  PrintInfo "Saved point cloud: ";
                  PrintValueFormat "RS_231400041-03_5.pcd";
                  PrintInfo nl;
                  overlay (self after_a_display) ] |} |}
  /\ Fmt.printf0 "RS_231400041-03_5.pcd" = Some "RS_231400041-03_5.pcd".
Proof.
  destruct (manual_save_writes_the_displayed_frame after_a_display (Grabbed 5))
    as [E P].
  - reflexivity.
  - split; [ exact E | apply P; reflexivity ].
Defined.

Lemma manual_path_inj (device_serial : string) (stamp1 stamp2 : Z) :
  manual_path device_serial stamp1 = manual_path device_serial stamp2 ->
  stamp1 = stamp2.
Proof.
  unfold manual_path. intros E.
  apply append_inj_l in E. apply append_inj_l in E. apply append_inj_l in E.
  apply append_inj_r in E. now apply show_int_inj.
Qed.

(** X7. Manual saves from one device do not overwrite each other as long
    as the time stamps of the frames differ: different time stamps give
    different file names. *)
Theorem manual_saves_do_not_collide
    (device_serial : string) (stamp1 stamp2 : Z) :
  stamp1 <> stamp2 ->
  manual_path device_serial stamp1 <> manual_path device_serial stamp2.
Proof. intros N E. apply N. exact (manual_path_inj _ _ _ E). Qed.

Lemma manual_saves_do_not_collide_witness :
  "RS_231400041-03_1700000000123.pcd" <> "RS_231400041-03_1700000000124.pcd".
Proof.
  apply (manual_saves_do_not_collide "231400041-03"
           1700000000123 1700000000124).
  lia.
Defined.

(** ** The overlay *)

(** X8. Every key-down event whose callback returns ends with a refresh
    of the overlay, drawn from the settings as the callback leaves
    them. *)
Theorem overlay_follows_every_key_down
    (event : KeyboardEvent) (m m' : Machine) :
  keyDown event = true ->
  keyboardCallback event m = Done tt m' ->
  exists l, effects (world m') = (l ++ [ overlay (self m') ])%list.
Proof.
  intros Hdown E. revert E.
  key_cases event; branches; intros E;
    try discriminate; try congruence;
    injection E as <-; simpl; eexists; reflexivity.
Qed.

Lemma overlay_follows_every_key_down_witness :
  exists l,
    effects (world after_first_s)
    = (l ++ [ overlay (self after_first_s) ])%list.
Proof.
  apply (overlay_follows_every_key_down (key_down "s") (start fresh_world)
           after_first_s);
    reflexivity.
Defined.

(** ** What does not write *)

Lemma quiet_step (dirs : list string) (saved : list string)
    (ev : Event) (m : Machine) :
  negb (writes ev) = true ->
  directories (world m) = dirs
  /\ saved_paths (effects (world m)) = saved
  /\ save_stream_ (self m) = false ->
  exists m',
    handle ev m = Done tt m'
    /\ directories (world m') = dirs
    /\ saved_paths (effects (world m')) = saved
    /\ save_stream_ (self m') = false.
Proof.
  intros Hw [Hd [Hs Hoff]].
  event_cases ev;
    try (simpl in Hw; discriminate); try congruence;
    (eexists; split; [ reflexivity | ]); simpl;
    rewrite ?saved_paths_app; unfold overlay; simpl;
    rewrite ?List.app_nil_r; auto.
Qed.

(** X9. Only p and s write. While recording is off, whatever events
    arrive that are no key-down of p or s (other keys, frames, iterations
    of the loop, the closing of the window), every callback returns, no
    directory is created, no file is saved, and recording stays off. *)
Theorem nothing_is_written_without_p_and_s
    (evs : list Event) (m : Machine) :
  forallb (fun ev => negb (writes ev)) evs = true ->
  save_stream_ (self m) = false ->
  exists m',
    deliver evs m = Done tt m'
    /\ directories (world m') = directories (world m)
    /\ saved_paths (effects (world m')) = saved_paths (effects (world m))
    /\ save_stream_ (self m') = false.
Proof.
  intros F Hoff.
  apply (deliver_returns_inv (fun ev => negb (writes ev))
           (fun m' =>
              directories (world m') = directories (world m)
              /\ saved_paths (effects (world m'))
                 = saved_paths (effects (world m))
              /\ save_stream_ (self m') = false));
    auto.
  intros ev m0 Hw J. now apply quiet_step.
Qed.

Lemma nothing_is_written_without_p_and_s_witness :
  exists m',
    deliver
      [ press "t"; CloudEvent (Grabbed 1); LoopIteration; press "b";
        press "S"; release "s"; CloudEvent (Grabbed 2); press "k";
        WindowClosed; CloudEvent (Grabbed 3) ] (start fresh_world)
    = Done tt m'
    /\ directories (world m') = []
    /\ saved_paths (effects (world m')) = []
    /\ save_stream_ (self m') = false.
Proof.
  apply (nothing_is_written_without_p_and_s
           [ press "t"; CloudEvent (Grabbed 1); LoopIteration; press "b";
             press "S"; release "s"; CloudEvent (Grabbed 2); press "k";
             WindowClosed; CloudEvent (Grabbed 3) ] (start fresh_world));
    reflexivity.
Defined.

(** ** The bilateral filter *)

(** X10. The b key takes effect on the next frame: after b, a delivered
    cloud is stored filtered with the current sigmas if the filter was
    off, and as it is if the filter was on; b once more gives all the
    settings back. *)
Theorem bilateral_toggle_applies_to_the_next_frame
    (cloud : Cloud) (m : Machine) :
  wasStopped (self m) = false ->
  exists m1 m2 m3,
    keyboardCallback (key_down "b") m = Done tt m1
    /\ with_bilateral_ (self m1) = negb (with_bilateral_ (self m))
    /\ cloudCallback cloud m1 = Done tt m2
    /\ new_cloud_ (self m2)
       = Some (if with_bilateral_ (self m) then cloud
               else Filtered (sigma_s_ (self m)) (sigma_r_ (self m)) cloud)
    /\ keyboardCallback (key_down "b") m1 = Done tt m3
    /\ self m3 = self m.
Proof.
  intros Hrun.
  assert (E1 : exists m1,
             keyboardCallback (key_down "b") m = Done tt m1
             /\ self m1
                = set_with_bilateral_ (negb (with_bilateral_ (self m))) (self m)).
  { unfold key_down. rewrite dispatch_b. unfold on_bilateral. run_monad.
    eexists. split; reflexivity. }
  destruct E1 as [m1 [E1 S1]].
  destruct (cloud_stored cloud m1) as [m2 [E2 [S2 _]]].
  { rewrite S1. exact Hrun. }
  assert (E3 : exists m3,
             keyboardCallback (key_down "b") m1 = Done tt m3
             /\ self m3
                = set_with_bilateral_ (negb (with_bilateral_ (self m1)))
                    (self m1)).
  { unfold key_down. rewrite dispatch_b. unfold on_bilateral. run_monad.
    eexists. split; reflexivity. }
  destruct E3 as [m3 [E3 S3]].
  exists m1, m2, m3.
  split; [ exact E1 | ]. split; [ rewrite S1; reflexivity | ].
  split; [ exact E2 | ]. split.
  { rewrite S2, S1. unfold incoming. simpl.
    destruct (with_bilateral_ (self m)); reflexivity. }
  split; [ exact E3 | ].
  rewrite S3, S1. simpl. rewrite negb_involutive. now destruct m as [[] ?].
Qed.

Lemma bilateral_toggle_applies_to_the_next_frame_witness :
  exists m1 m2 m3,
    keyboardCallback (key_down "b") (start fresh_world) = Done tt m1
    /\ with_bilateral_ (self m1) = true
    /\ cloudCallback (Grabbed 9) m1 = Done tt m2
    /\ new_cloud_ (self m2)
       = Some (Filtered (F32.of_int 5) default_sigma_r (Grabbed 9))
    /\ keyboardCallback (key_down "b") m1 = Done tt m3
    /\ self m3 = constructed.
Proof.
  apply (bilateral_toggle_applies_to_the_next_frame (Grabbed 9)
           (start fresh_world)).
  reflexivity.
Defined.

(** ** Sessions in a row *)

Lemma creatable_fresh (name : string) (w : World) :
  read_only w = false -> ~ In name (directories w) -> creatable name w = true.
Proof.
  unfold creatable. intros -> N. simpl.
  destruct (existsb (String.eqb name) (directories w)) eqn:E; auto.
  apply existsb_exists in E as [d [I E]].
  apply String.eqb_eq in E. subst d. contradiction.
Qed.

Lemma sessions_in_order (frames : list (list Cloud)) (m : Machine) :
  save_stream_ (self m) = false ->
  frame_id_ (self m) = 0 ->
  wasStopped (self m) = false ->
  read_only (world m) = false ->
  0 <= stream_id_ (self m) ->
  stream_id_ (self m) + Z.of_nat (List.length frames) <= Int32.max_signed ->
  Forall (fun clouds => Z.of_nat (List.length clouds) < Int32.max_signed)
    frames ->
  (forall j, stream_id_ (self m) < j ->
     ~ In (Fmt.pad4 j) (directories (world m))) ->
  exists m',
    deliver (sessions frames) m = Done tt m'
    /\ directories (world m')
       = (rev (map Fmt.pad4
                 (consecutive (stream_id_ (self m) + 1) (List.length frames)))
          ++ directories (world m))%list
    /\ saved_paths (effects (world m'))
       = (saved_paths (effects (world m))
          ++ session_files (stream_id_ (self m) + 1) frames)%list
    /\ stream_id_ (self m')
       = stream_id_ (self m) + Z.of_nat (List.length frames).
Proof.
  revert m. induction frames as [| clouds frames IH];
    intros m Hoff Hfid Hrun Hro Hpos Hmax Hlen Hfresh.
  - exists m. simpl. rewrite List.app_nil_r, Z.add_0_r. auto.
  - apply Forall_cons_iff in Hlen as [Hlen1 Hlen].
    simpl List.length in Hmax. rewrite Nat2Z.inj_succ in Hmax.
    assert (A : Int32.add (stream_id_ (self m)) 1 = stream_id_ (self m) + 1).
    { apply add_small.
      unfold Int32.in_range, Int32.min_signed, Int32.max_signed in *. lia. }
    assert (Hok : creatable (Fmt.pad4 (Int32.add (stream_id_ (self m)) 1))
                    (world m) = true).
    { apply creatable_fresh; auto. rewrite A. apply Hfresh. lia. }
    destruct (closed_session clouds m Hoff Hfid Hrun Hlen1 Hok)
      as [m1 [E1 [Off1 [Fid1 [Run1 [Sid1 [Dirs1 [Ro1 Saved1]]]]]]]].
    rewrite A in Sid1, Dirs1, Saved1.
    destruct (IH m1) as [m2 [E2 [Dirs2 [Saved2 Sid2]]]]; auto.
    { congruence. }
    { lia. }
    { lia. }
    { intros j Hj. rewrite Dirs1. simpl. intros [E | I].
      - apply pad4_inj in E. lia.
      - revert I. apply Hfresh. lia. }
    exists m2. split.
    { change (sessions (clouds :: frames))
        with (List.app (press "s" :: map CloudEvent clouds ++ [ press "s" ])
                (sessions frames)).
      rewrite deliver_app. unfold bind at 1. rewrite E1. exact E2. }
    rewrite Sid1 in Dirs2, Saved2, Sid2.
    split; [ | split ].
    + rewrite Dirs2, Dirs1. simpl. rewrite <- List.app_assoc. reflexivity.
    + rewrite Saved2, Saved1. simpl. rewrite <- List.app_assoc. reflexivity.
    + rewrite Sid2. simpl List.length. lia.
Qed.

(** X11. Sessions are numbered in the order they are started. In a
    working directory that is empty and writable, any number of complete
    sessions (s, frames, s), one after the other from the constructed
    viewer, create the directories 0001, 0002, ... in that order, all
    different, and in the k-th of them the files numbered 1, 2, ... of
    the frames of the k-th session. The counters are C++ [int]s: the
    statement is for fewer than 2^31 sessions of fewer than 2^31 - 1
    frames. *)
Theorem sessions_are_numbered_in_order
    (frames : list (list Cloud)) (w : World) :
  directories w = [] ->
  read_only w = false ->
  Z.of_nat (List.length frames) <= Int32.max_signed ->
  Forall (fun clouds => Z.of_nat (List.length clouds) < Int32.max_signed)
    frames ->
  exists m',
    deliver (sessions frames) (start w) = Done tt m'
    /\ directories (world m')
       = rev (map Fmt.pad4 (consecutive 1 (List.length frames)))
    /\ NoDup (directories (world m'))
    /\ saved_paths (effects (world m'))
       = (saved_paths (effects w) ++ session_files 1 frames)%list
    /\ stream_id_ (self m') = Z.of_nat (List.length frames).
Proof.
  intros Hdirs Hro Hmax Hlen.
  assert (Hsid : stream_id_ (self (start w)) = 0) by reflexivity.
  destruct (sessions_in_order frames (start w)) as [m' [E [D [S I]]]].
  { reflexivity. }
  { reflexivity. }
  { reflexivity. }
  { exact Hro. }
  { rewrite Hsid. lia. }
  { rewrite Hsid. lia. }
  { exact Hlen. }
  { intros j _. change (directories (world (start w))) with (directories w).
    rewrite Hdirs. intros []. }
  rewrite Hsid in D, S, I.
  change (directories (world (start w))) with (directories w) in D.
  change (effects (world (start w))) with (effects w) in S.
  change (0 + 1) with 1 in D, S. rewrite Z.add_0_l in I. rewrite Hdirs, List.app_nil_r in D.
  exists m'. split; [ exact E | ]. split; [ exact D | ].
  split; [ | auto ].
  rewrite D. apply NoDup_rev. apply Finite.Injective_map_NoDup.
  - intros a b. apply pad4_inj.
  - apply NoDup_consecutive.
Qed.

Lemma sessions_are_numbered_in_order_witness :
  exists m',
    deliver
      (sessions [ [ Grabbed 1; Grabbed 2 ]; []; [ Grabbed 3 ] ])
      (start fresh_world)
    = Done tt m'
    /\ directories (world m') = [ "0003"; "0002"; "0001" ]
    /\ NoDup (directories (world m'))
    /\ saved_paths (effects (world m'))
       = [ "0001/0001.pcd"; "0001/0002.pcd"; "0003/0001.pcd" ]
    /\ stream_id_ (self m') = 3.
Proof.
  apply (sessions_are_numbered_in_order
           [ [ Grabbed 1; Grabbed 2 ]; []; [ Grabbed 3 ] ] fresh_world).
  - reflexivity.
  - reflexivity.
  - vm_compute. discriminate.
  - repeat constructor.
Defined.

(** ** The grabber around the loop *)







(** ** The start of the program *)

Lemma print_devices_nth (serials : list string) (i : Z) (k : nat)
    (device_serial : string) :
  nth_error serials k = Some device_serial ->
  nth_error (print_devices i serials) k
  = Some (device_line (i + Z.of_nat k) device_serial).
Proof.
  revert i k. induction serials as [| s serials IH]; intros i k E.
  - now destruct k.
  - destruct k as [| k].
    + injection E as ->. simpl. now rewrite Z.add_0_r.
    + simpl in E. simpl print_devices. simpl nth_error.
      rewrite (IH (i + 1) k E). f_equal. f_equal. lia.
Qed.

Lemma length_print_devices (serials : list string) (i : Z) :
  List.length (print_devices i serials) = List.length serials.
Proof.
  revert i. induction serials as [| s serials IH]; intros i; simpl; auto.
Qed.

(** X14. [printDeviceList] lists the devices in the order they are
    captured, numbered from 1: the device captured after [k] others is on
    the line after the heading and these [k] lines, with the number
    [k + 1]; after the lines of the devices comes one closing line. *)
Theorem devices_are_listed_in_order_from_one
    (host : Host) (k : nat) (device_serial : string) :
  nth_error (connected host) k = Some device_serial ->
  nth_error (printDeviceList host) (S k)
  = Some (device_line (Z.of_nat k + 1) device_serial)
  /\ List.length (printDeviceList host)
     = (List.length (connected host) + 2)%nat.
Proof.
  intros E. unfold printDeviceList. split.
  - simpl nth_error. rewrite nth_error_app1.
    + rewrite (print_devices_nth _ 1 k _ E). f_equal. f_equal. lia.
    + rewrite length_print_devices. apply nth_error_Some. congruence.
  - simpl List.length. rewrite List.length_app, length_print_devices.
    simpl. lia.
Qed.

Lemma devices_are_listed_in_order_from_one_witness :
  nth_error
    (printDeviceList
       {| connected := [ "231400041-03"; "231400041-07" ];
          grabber := fun _ => inl "no device";
          cwd_directories := [];
          cwd_read_only := false |}) 2
  = Some (Cout (nl ++ "  #2  231400041-07"))
  /\ List.length
       (printDeviceList
          {| connected := [ "231400041-03"; "231400041-07" ];
             grabber := fun _ => inl "no device";
             cwd_directories := [];
             cwd_read_only := false |})
     = 4%nat.
Proof.
  apply (devices_are_listed_in_order_from_one
           {| connected := [ "231400041-03"; "231400041-07" ];
              grabber := fun _ => inl "no device";
              cwd_directories := [];
              cwd_read_only := false |} 1 "231400041-07").
  reflexivity.
Defined.

(** X15. With one of the switches [--help], [-h], [--list], [-l] the
    program creates no grabber for a device id, opens no viewer and
    touches no directory: what it prints and returns depends on the
    arguments and on the connected devices only. *)
Theorem help_and_list_open_no_device
    (argv : list string) (host host' : Host) (events events' : list Event) :
  help_or_list argv = true ->
  connected host = connected host' ->
  main argv host events = main argv host' events'.
Proof.
  unfold help_or_list, main, printDeviceList. intros H C.
  destruct (find_switch argv "--help" || find_switch argv "-h");
    [ reflexivity | ].
  simpl in H. rewrite H, C. reflexivity.
Qed.

Lemma help_and_list_open_no_device_witness :
  main [ "viewer"; "--list"; "231400041-03" ] host_with_0001 [ press "s" ]
  = main [ "viewer"; "--list"; "231400041-03" ]
      {| connected := [ "231400041-03" ];
         grabber := fun _ => inl "no device";
         cwd_directories := [];
         cwd_read_only := true |} [].
Proof.
  apply (help_and_list_open_no_device
           [ "viewer"; "--list"; "231400041-03" ] host_with_0001
           {| connected := [ "231400041-03" ];
              grabber := fun _ => inl "no device";
              cwd_directories := [];
              cwd_read_only := true |} [ press "s" ] []).
  - reflexivity.
  - reflexivity.
Defined.

(** X16. The device id is the last argument, whatever it is, unless the
    program has no argument or the single argument [--xyz]: then it is
    empty. A switch [--xyz] that comes last after other arguments is
    taken as the device id. *)
Theorem device_id_is_the_last_argument
    (program : string) (arguments : list string) (argument : string) :
  arguments <> [] \/ argument <> "--xyz" ->
  device_id (program :: arguments ++ [ argument ])%list = argument
  /\ device_id [ program ] = EmptyString
  /\ device_id [ program; "--xyz" ] = EmptyString.
Proof.
  intros H. split; [ | split; reflexivity ].
  unfold device_id, first_available.
  change (program :: arguments ++ [ argument ])%list
    with ((program :: arguments) ++ [ argument ])%list.
  rewrite last_last.
  destruct arguments as [| a arguments].
  - destruct H as [H | H]; [ congruence | ].
    change ([ program ] ++ [ argument ])%list with [ program; argument ].
    assert (F : find_switch [ program; argument ] "--xyz" = false).
    { unfold find_switch. cbn [tl existsb]. rewrite orb_false_r.
      apply String.eqb_neq. congruence. }
    rewrite F, andb_false_r. reflexivity.
  - rewrite List.length_app. simpl List.length.
    replace (Z.of_nat (S (S (List.length arguments)) + 1)%nat =? 1)
      with false by (symmetry; apply Z.eqb_neq; lia).
    replace (Z.of_nat (S (S (List.length arguments)) + 1)%nat =? 2)
      with false by (symmetry; apply Z.eqb_neq; lia).
    reflexivity.
Qed.

Lemma device_id_is_the_last_argument_witness :
  device_id [ "viewer"; "231400041-03"; "--xyz" ] = "--xyz"
  /\ device_id [ "viewer" ] = EmptyString
  /\ device_id [ "viewer"; "--xyz" ] = EmptyString.
Proof.
  apply (device_id_is_the_last_argument "viewer" [ "231400041-03" ] "--xyz").
  left. discriminate.
Defined.

(** ** The files of a session *)

Lemma show_int_head (z : Z) :
  match Fmt.show_int z with
  | EmptyString => True
  | String c _ => c <> "R"%char
  end.
Proof.
  unfold Fmt.show_int. destruct (Z.to_int z) as [d | d]; simpl.
  - destruct d; simpl; auto; discriminate.
  - discriminate.
Qed.

Lemma directory_head (z : Z) :
  match Fmt.pad4 z ++ "/" with
  | EmptyString => False
  | String c _ => c <> "R"%char
  end.
Proof.
  unfold Fmt.pad4, Fmt.setw_fill0.
  destruct (4 - String.length (Fmt.show_int z))%nat; simpl.
  - pose proof (show_int_head z) as H.
    destruct (Fmt.show_int z); simpl; [ discriminate | exact H ].
  - discriminate.
Qed.

Lemma prefix_app a b c : String.prefix (a ++ b) (a ++ c) = String.prefix b c.
Proof.
  induction a as [| x a IH]; simpl; auto.
  destruct (ascii_dec x x); [ exact IH | contradiction ].
Qed.

Lemma in_directory_stream_path sid i :
  in_directory sid (stream_path sid i) = true.
Proof.
  unfold in_directory, stream_path. rewrite prefix_app. simpl.
  destruct (ascii_dec "/" "/"); [ | contradiction ].
  now destruct (Fmt.pad4 i ++ ".pcd").
Qed.

Lemma in_directory_manual sid rest :
  in_directory sid ("RS_" ++ rest) = false.
Proof.
  unfold in_directory.
  change ("RS_" ++ rest) with (String "R" ("S_" ++ rest)).
  pose proof (directory_head sid) as H.
  destruct (Fmt.pad4 sid ++ "/") as [| c s]; [ contradiction | ].
  simpl. destruct (ascii_dec c "R"); [ contradiction | reflexivity ].
Qed.

Lemma files_in_app sid l1 l2 :
  files_in sid (l1 ++ l2)%list = (files_in sid l1 ++ files_in sid l2)%list.
Proof. unfold files_in. now rewrite saved_paths_app, filter_app. Qed.

Lemma session_step (ev : Event) (m : Machine) :
  save_stream_ (self m) = true ->
  wasStopped (self m) = false ->
  within_session ev = true ->
  (is_frame ev = true ->
   Int32.add (frame_id_ (self m)) 1 = frame_id_ (self m) + 1) ->
  save_stream_ (self (final (handle ev m))) = true
  /\ wasStopped (self (final (handle ev m))) = false
  /\ stream_id_ (self (final (handle ev m))) = stream_id_ (self m)
  /\ frame_id_ (self (final (handle ev m)))
     = frame_id_ (self m) + (if is_frame ev then 1 else 0)
  /\ (exists l,
        effects (world (final (handle ev m))) = (effects (world m) ++ l)%list
        /\ files_in (stream_id_ (self m)) l
           = (if is_frame ev
              then [ stream_path (stream_id_ (self m)) (frame_id_ (self m)) ]
              else [])
        /\ (p_down ev = false ->
            saved_paths l
            = if is_frame ev
              then [ stream_path (stream_id_ (self m)) (frame_id_ (self m)) ]
              else []))
  /\ (last_cloud_ (self m) <> None ->
      last_cloud_ (self (final (handle ev m))) <> None)
  /\ (last_cloud_ (self m) <> None \/ p_down ev = false ->
      returns (handle ev m) = true).
Proof.
  intros Hon Hrun Hin Hadd.
  event_cases ev;
    try solve [ vm_compute in Hin; discriminate ];
    try congruence.
  all: repeat split; simpl; try assumption; try lia; try congruence.
  all: try (as_suffix; unfold overlay, files_in; simpl; split; reflexivity).
  - as_suffix. unfold files_in, overlay. cbn [saved_paths List.filter].
    rewrite in_directory_manual. split; [ reflexivity | ].
    intros H. vm_compute in H. discriminate.
  - intros [H | H]; [ congruence | vm_compute in H; discriminate ].
  - apply Hadd. reflexivity.
  - as_suffix. unfold files_in. cbn [saved_paths List.filter].
    now rewrite in_directory_stream_path.
Qed.

Lemma consecutive_app f a b :
  consecutive f (a + b)
  = (consecutive f a ++ consecutive (f + Z.of_nat a) b)%list.
Proof.
  revert f. induction a as [| a IH]; intros f.
  - simpl. now rewrite Z.add_0_r.
  - simpl consecutive. rewrite IH. simpl. do 3 f_equal. lia.
Qed.

Lemma returns_deliver_cons ev evs m :
  returns (deliver (ev :: evs) m)
  = match handle ev m with
    | Done _ m1 => returns (deliver evs m1)
    | _ => false
    end.
Proof. simpl. unfold bind. now destruct (handle ev m). Qed.

Lemma session_events (evs : list Event) (m : Machine) :
  save_stream_ (self m) = true ->
  wasStopped (self m) = false ->
  Int32.in_range (frame_id_ (self m)) ->
  forallb within_session evs = true ->
  frame_id_ (self m) + Z.of_nat (delivered evs) <= Int32.max_signed ->
  exists n : nat,
    files_in (stream_id_ (self m)) (effects (world (final (deliver evs m))))
    = (files_in (stream_id_ (self m)) (effects (world m))
       ++ map (stream_path (stream_id_ (self m)))
            (consecutive (frame_id_ (self m)) n))%list
    /\ (existsb p_down evs = false ->
        saved_paths (effects (world (final (deliver evs m))))
        = (saved_paths (effects (world m))
           ++ map (stream_path (stream_id_ (self m)))
                (consecutive (frame_id_ (self m)) n))%list)
    /\ frame_id_ (self (final (deliver evs m)))
       = frame_id_ (self m) + Z.of_nat n
    /\ stream_id_ (self (final (deliver evs m))) = stream_id_ (self m)
    /\ save_stream_ (self (final (deliver evs m))) = true
    /\ wasStopped (self (final (deliver evs m))) = false
    /\ (n <= delivered evs)%nat
    /\ (returns (deliver evs m) = true -> n = delivered evs)
    /\ (last_cloud_ (self m) <> None \/ existsb p_down evs = false ->
        returns (deliver evs m) = true).
Proof.
  revert m. induction evs as [| ev evs IH]; intros m Hon Hrun Hr Hin Hle.
  - exists 0%nat. simpl. rewrite !List.app_nil_r, Z.add_0_r.
    repeat split; auto.
  - simpl in Hin. apply andb_prop in Hin as [Hin1 Hin2].
    assert (Hd : delivered (ev :: evs)
                 = ((if is_frame ev then 1 else 0) + delivered evs)%nat).
    { unfold delivered. simpl. now destruct (is_frame ev). }
    rewrite Hd in *.
    assert (Hadd : is_frame ev = true ->
                   Int32.add (frame_id_ (self m)) 1 = frame_id_ (self m) + 1).
    { intros F. rewrite F in Hle. apply add_small.
      unfold Int32.in_range, Int32.min_signed, Int32.max_signed in *. lia. }
    destruct (session_step ev m Hon Hrun Hin1 Hadd)
      as [On1 [Run1 [Sid1 [Fid1 [[l [El [Fl Al]]] [Last1 Ret1]]]]]].
    assert (One : map (stream_path (stream_id_ (self m)))
                    (consecutive (frame_id_ (self m))
                       (if is_frame ev then 1 else 0))
                  = if is_frame ev
                    then [ stream_path (stream_id_ (self m))
                             (frame_id_ (self m)) ]
                    else []).
    { now destruct (is_frame ev). }
    rewrite final_deliver_cons, returns_deliver_cons.
    cbn [existsb].
    destruct (handle ev m) as [[] m1 | code m1 | m1]; simpl in On1, Run1,
      Sid1, Fid1, El, Last1, Ret1.
    + destruct (IH m1) as [n [F [A [Fid [Sid [On [Run [Le [All Ret]]]]]]]]];
        auto.
      { rewrite Fid1.
        unfold Int32.in_range, Int32.min_signed, Int32.max_signed in *.
        destruct (is_frame ev); lia. }
      { rewrite Fid1. destruct (is_frame ev); lia. }
      exists ((if is_frame ev then 1 else 0) + n)%nat.
      rewrite Sid1, Fid1 in *.
      assert (Two : consecutive (frame_id_ (self m))
                      ((if is_frame ev then 1 else 0) + n)
                    = (consecutive (frame_id_ (self m))
                         (if is_frame ev then 1 else 0)
                       ++ consecutive
                            (frame_id_ (self m)
                             + (if is_frame ev then 1 else 0)) n)%list).
      { rewrite consecutive_app. do 2 f_equal.
        destruct (is_frame ev); reflexivity. }
      split.
      { rewrite F, El, files_in_app, Fl, Two, map_app, One.
        now rewrite <- List.app_assoc. }
      split.
      { intros P. apply orb_false_elim in P as [P1 P2].
        rewrite (A P2), El, saved_paths_app, (Al P1), Two, map_app, One.
        now rewrite <- List.app_assoc. }
      split; [ rewrite Fid; destruct (is_frame ev); lia | ].
      split; [ exact Sid | ].
      split; [ exact On | ].
      split; [ exact Run | ].
      split; [ lia | ].
      split; [ intros R; now rewrite (All R) | ].
      intros [H | H]; apply Ret.
      * left. now apply Last1.
      * right. now apply orb_false_elim in H.
    + exists (if is_frame ev then 1 else 0)%nat.
      split; [ now rewrite El, files_in_app, Fl, One | ].
      split.
      { intros P. apply orb_false_elim in P as [P1 P2].
        now rewrite El, saved_paths_app, (Al P1), One. }
      split; [ rewrite Fid1; destruct (is_frame ev); reflexivity | ].
      split; [ exact Sid1 | ].
      split; [ exact On1 | ].
      split; [ exact Run1 | ].
      split; [ lia | ].
      split; [ discriminate | ].
      intros [H | H]; apply Ret1; [ now left | right ].
      now apply orb_false_elim in H.
    + exists (if is_frame ev then 1 else 0)%nat.
      split; [ now rewrite El, files_in_app, Fl, One | ].
      split.
      { intros P. apply orb_false_elim in P as [P1 P2].
        now rewrite El, saved_paths_app, (Al P1), One. }
      split; [ rewrite Fid1; destruct (is_frame ev); reflexivity | ].
      split; [ exact Sid1 | ].
      split; [ exact On1 | ].
      split; [ exact Run1 | ].
      split; [ lia | ].
      split; [ discriminate | ].
      intros [H | H]; apply Ret1; [ now left | right ].
      now apply orb_false_elim in H.
Qed.

(** C4, amended. Whatever has happened since the viewer was constructed:
    while recording is on and the viewer has not been stopped, take any
    events of the session, that is frames, iterations of the loop of
    [run] and keys in any order, but not s going down and not the closing
    of the window. However their handling ends, the files saved into the
    directory of the session are those that were there and, for the [n]
    frames that were delivered, one file each with the indices
    [frame_id_], [frame_id_ + 1], ... in the order of the frames: the
    indices are consecutive and the files pairwise different. Nothing
    else is saved unless p is pressed. The counter ends [n] above where
    it began, the number of the session and the recording flag stay.
    When all the callbacks return, [n] is the number of frames among the
    events, and they all return unless p is pressed while nothing has
    been displayed. The indices are C++ [int]s: the statement is for a
    counter that does not overflow. *)
Theorem recorded_frames_have_consecutive_indices
    (before : list Event) (w : World) (evs : list Event) (m : Machine) :
  deliver before (start w) = Done tt m ->
  save_stream_ (self m) = true ->
  wasStopped (self m) = false ->
  forallb within_session evs = true ->
  frame_id_ (self m) + Z.of_nat (delivered evs) <= Int32.max_signed ->
  exists n : nat,
    files_in (stream_id_ (self m)) (effects (world (final (deliver evs m))))
    = (files_in (stream_id_ (self m)) (effects (world m))
       ++ map (stream_path (stream_id_ (self m)))
            (consecutive (frame_id_ (self m)) n))%list
    /\ NoDup (map (stream_path (stream_id_ (self m)))
                (consecutive (frame_id_ (self m)) n))
    /\ (existsb p_down evs = false ->
        saved_paths (effects (world (final (deliver evs m))))
        = (saved_paths (effects (world m))
           ++ map (stream_path (stream_id_ (self m)))
                (consecutive (frame_id_ (self m)) n))%list)
    /\ frame_id_ (self (final (deliver evs m)))
       = frame_id_ (self m) + Z.of_nat n
    /\ stream_id_ (self (final (deliver evs m))) = stream_id_ (self m)
    /\ save_stream_ (self (final (deliver evs m))) = true
    /\ (n <= delivered evs)%nat
    /\ (returns (deliver evs m) = true -> n = delivered evs)
    /\ (last_cloud_ (self m) <> None \/ existsb p_down evs = false ->
        returns (deliver evs m) = true).
Proof.
  intros Hreach Hon Hrun Hin Hle.
  destruct (session_events evs m Hon Hrun) as
    [n [F [A [Fid [Sid [On [Run [Le [All Ret]]]]]]]]]; auto.
  { apply (counters_of_reachable_states before w m Hreach). }
  exists n. repeat split; auto. apply NoDup_stream_paths.
Qed.

Lemma recorded_frames_have_consecutive_indices_witness :
  exists n : nat,
    files_in 1
      (effects
         (world
            (final
               (deliver
                  [ CloudEvent (Grabbed 10); LoopIteration; press "t";
                    press "p"; CloudEvent (Grabbed 11); release "s";
                    LoopIteration; press "x"; CloudEvent (Grabbed 12) ]
                  after_first_s))))
    = (files_in 1 (effects (world after_first_s))
       ++ map (stream_path 1) (consecutive 1 n))%list
    /\ NoDup (map (stream_path 1) (consecutive 1 n))
    /\ (existsb p_down
          [ CloudEvent (Grabbed 10); LoopIteration; press "t";
            press "p"; CloudEvent (Grabbed 11); release "s";
            LoopIteration; press "x"; CloudEvent (Grabbed 12) ] = false ->
        saved_paths
          (effects
             (world
                (final
                   (deliver
                      [ CloudEvent (Grabbed 10); LoopIteration; press "t";
                        press "p"; CloudEvent (Grabbed 11); release "s";
                        LoopIteration; press "x"; CloudEvent (Grabbed 12) ]
                      after_first_s))))
        = (saved_paths (effects (world after_first_s))
           ++ map (stream_path 1) (consecutive 1 n))%list)
    /\ frame_id_
         (self
            (final
               (deliver
                  [ CloudEvent (Grabbed 10); LoopIteration; press "t";
                    press "p"; CloudEvent (Grabbed 11); release "s";
                    LoopIteration; press "x"; CloudEvent (Grabbed 12) ]
                  after_first_s)))
       = 1 + Z.of_nat n
    /\ stream_id_
         (self
            (final
               (deliver
                  [ CloudEvent (Grabbed 10); LoopIteration; press "t";
                    press "p"; CloudEvent (Grabbed 11); release "s";
                    LoopIteration; press "x"; CloudEvent (Grabbed 12) ]
                  after_first_s)))
       = 1
    /\ save_stream_
         (self
            (final
               (deliver
                  [ CloudEvent (Grabbed 10); LoopIteration; press "t";
                    press "p"; CloudEvent (Grabbed 11); release "s";
                    LoopIteration; press "x"; CloudEvent (Grabbed 12) ]
                  after_first_s)))
       = true
    /\ (n <= 3)%nat
    /\ (returns
          (deliver
             [ CloudEvent (Grabbed 10); LoopIteration; press "t";
               press "p"; CloudEvent (Grabbed 11); release "s";
               LoopIteration; press "x"; CloudEvent (Grabbed 12) ]
             after_first_s) = true -> n = 3%nat)
    /\ (last_cloud_ (self after_first_s) <> None
        \/ existsb p_down
             [ CloudEvent (Grabbed 10); LoopIteration; press "t";
               press "p"; CloudEvent (Grabbed 11); release "s";
               LoopIteration; press "x"; CloudEvent (Grabbed 12) ] = false ->
        returns
          (deliver
             [ CloudEvent (Grabbed 10); LoopIteration; press "t";
               press "p"; CloudEvent (Grabbed 11); release "s";
               LoopIteration; press "x"; CloudEvent (Grabbed 12) ]
             after_first_s) = true).
Proof.
  apply (recorded_frames_have_consecutive_indices
           [ press "s" ] fresh_world
           [ CloudEvent (Grabbed 10); LoopIteration; press "t";
             press "p"; CloudEvent (Grabbed 11); release "s";
             LoopIteration; press "x"; CloudEvent (Grabbed 12) ]
           after_first_s).
  - reflexivity.
  - reflexivity.
  - reflexivity.
  - reflexivity.
  - vm_compute. discriminate.
Defined.

(** A session with keys and iterations of the loop between the frames:
    the frames are numbered 1, 2, 3, and the manual save of p goes
    beside the directory of the session. *)
Example session_with_keys_and_iterations :
  files_in 1
    (effects
       (world
          (final
             (deliver
                [ press "s"; CloudEvent (Grabbed 10); LoopIteration;
                  press "t"; press "p"; CloudEvent (Grabbed 11);
                  release "s"; LoopIteration; press "x";
                  CloudEvent (Grabbed 12) ]
                (start fresh_world)))))
  = [ "0001/0001.pcd"; "0001/0002.pcd"; "0001/0003.pcd" ]
  /\ saved_after
       [ press "s"; CloudEvent (Grabbed 10); LoopIteration;
         press "t"; press "p"; CloudEvent (Grabbed 11);
         release "s"; LoopIteration; press "x";
         CloudEvent (Grabbed 12) ]
       (start fresh_world)
     = Some [ "0001/0001.pcd"; "RS_231400041-03_10.pcd"; "0001/0002.pcd";
              "0001/0003.pcd" ].
Proof. vm_compute. auto. Qed.
